(** * scrapper.py: extraction and bulk download of the OSMD sample scores

    A shallow embedding of [demo/osmd-samples/scrapper.py].  The script is
    a straight-line program over two external capabilities (a Selenium
    browser session and the [requests] HTTP client) and the local file
    system.  Every external call is answered by an environment ([env])
    that fixes which calls fail and what the others return; the script
    itself is written in a state-and-exception monad over a [world] that
    records the files on disk, whether the browser process is alive, and
    the chronological trace of observable events.

    A Python [str] is represented by the bytes of its UTF-8 encoding: a
    character outside ASCII shows as bytes of value 128 and above, and
    "/" and the two suffixes never occur inside such a character. *)

From Stdlib Require Import Ascii String DecimalString.
From stdpp Require Import gmap strings list fin_maps.

Local Open Scope string_scope.

(** ** Python string operations used by the script *)

Module PyStr.

(** [s.endswith(suffix)]: the last [len(suffix)] characters of [s] are
    compared with [suffix]; a suffix longer than [s] never matches. *)
Definition endswith (s suffix : string) : bool :=
  (String.length suffix <=? String.length s)%nat
  && String.eqb
       (substring (String.length s - String.length suffix)
                  (String.length suffix) s)
       suffix.

(** [s.startswith(p)] *)
Definition startswith (s p : string) : bool := String.prefix p s.

(** [s.split(sep)] for a one-character separator: the segments between
    the occurrences of [sep], in order; never the empty list. *)
Fixpoint split (sep : ascii) (s : string) : list string :=
  match s with
  | EmptyString => [EmptyString]
  | String c s' =>
      if Ascii.eqb c sep then EmptyString :: split sep s'
      else match split sep s' with
           | [] => [String c EmptyString]
           | seg :: segs => String c seg :: segs
           end
  end.

(** [c in s] for a character [c] *)
Fixpoint contains (c : ascii) (s : string) : bool :=
  match s with
  | EmptyString => false
  | String d s' => Ascii.eqb d c || contains c s'
  end.

(** [bool(val)] for a value that is [None] or a [str] *)
Definition truthy (val : option string) : bool :=
  match val with
  | None => false
  | Some s => negb (String.eqb s EmptyString)
  end.

(** [s.isascii()]: every character is below 128 *)
Fixpoint isascii (s : string) : bool :=
  match s with
  | EmptyString => true
  | String c s' => (Ascii.nat_of_ascii c <? 128)%nat && isascii s'
  end.

(** [str(n)] for a non-negative integer *)
Definition str_of_nat (n : nat) : string :=
  NilEmpty.string_of_uint (Nat.to_uint n).

(** [str(z)] for an integer *)
Definition str_of_Z (z : Z) : string :=
  NilEmpty.string_of_int (Z.to_int z).

End PyStr.

(** [os.path.join(a, b)] with POSIX path rules ([posixpath.join]): an
    absolute second component replaces the first one; otherwise the two
    are glued with exactly one separator between them. *)
Definition os_path_join (a b : string) : string :=
  if PyStr.startswith b "/" then b
  else if String.eqb a EmptyString || PyStr.endswith a "/" then a +:+ b
  else a +:+ "/" +:+ b.

(** ** Exceptions, results and the world *)

(** The exception classes that the calls of the script raise.  All of
    them derive from Python's [Exception], which is what the handler of
    the download loop catches when they are raised inside its [try]. *)
Inductive exn_class :=
| WebDriverException      (* selenium: session cannot start, page load *)
| NoSuchElementException  (* selenium: [find_element] found nothing *)
| RequestException        (* requests: connection, DNS, timeout, ... *)
| HTTPError               (* requests: [raise_for_status] *)
| OSError                 (* open / write / makedirs *)
| UnicodeEncodeError      (* print: standard output cannot encode the text *)
| IndexError.             (* list index out of range *)

Record exn := Exn { exn_kind : exn_class; exn_msg : string }.

Inductive result (A : Type) :=
| Ok (a : A)
| Raise (e : exn).
Arguments Ok {A} a.
Arguments Raise {A} e.

Definition bytes := list Byte.byte.

(** What the outside world can observe of a run, in chronological order. *)
Inductive event :=
| EvPrint (line : string)                 (* a line on standard output *)
| EvMakedirs (path : string)
| EvBrowserStart
| EvNavigate (url : string)
| EvSleep (seconds : nat)
| EvBrowserQuit
| EvGet (url : string)                    (* one HTTP GET request sent *)
| EvOpen (path : string)                  (* file created or truncated *)
| EvWrite (path : string) (data : bytes). (* whole body stored in file *)

Record world := World {
  files : gmap string bytes;   (* regular files, by path *)
  browser_running : bool;      (* the chromedriver/Chrome process *)
  trace : list event
}.

Definition emit (ev : event) (w : world) : world :=
  World (files w) (browser_running w) (trace w ++ [ev]).

Definition set_files (fs : gmap string bytes) (w : world) : world :=
  World fs (browser_running w) (trace w).

Definition set_browser (b : bool) (w : world) : world :=
  World (files w) b (trace w).

(** An HTTP response as [requests] presents it.  [response_url] is
    [Response.url]: the URL the response finally came from, normalised
    by the library and after any redirect, which need not be the string
    that was passed to [requests.get]. *)
Record response := Response {
  status_code : Z;
  reason : string;
  response_url : string;
  content : bytes
}.

(** A DOM [<option>] element, reduced to what the script asks of it:
    the outcome of [get_attribute("value")]. *)
Record web_element := WebElement {
  attr_value : exn + option string
}.

(** The environment answers every external call of one run. *)
Record env := Env {
  makedirs_fails : string -> option exn;
  chrome_fails : option exn;                  (* [webdriver.Chrome(...)] *)
  navigate_fails : string -> option exn;      (* [driver.get(url)] *)
  select_missing : option exn;                (* [find_element(TAG_NAME,"select")] *)
  select_options : exn + list web_element;    (* [select.find_elements(...)] *)
  http_get : string -> exn + response;        (* [requests.get(url)] *)
  open_fails : string -> option exn;          (* [open(path, "wb")] *)
  write_fails : string -> bytes -> option (nat * exn);
    (* [f.write(data)] and the closing flush: [Some (n, e)] stores only
       the first [n] bytes and raises [e] *)
  stdout_rejects : string -> option exn
    (* [print(line)] for a line with characters outside ASCII: the
       [UnicodeEncodeError] of a standard output whose encoding cannot
       encode the line, if any *)
}.

(** ** The monad of the script: state with exceptions *)

Definition M (A : Type) : Type := world -> result A * world.

Definition ret {A} (a : A) : M A := fun w => (Ok a, w).

Definition raise {A} (e : exn) : M A := fun w => (Raise e, w).

Definition bind {A B} (m : M A) (k : A -> M B) : M B :=
  fun w =>
    match m w with
    | (Ok a, w') => k a w'
    | (Raise e, w') => (Raise e, w')
    end.

(** [try: body  except Exception as e: handler(e)] *)
Definition try_except {A} (body : M A) (handler : exn -> M A) : M A :=
  fun w =>
    match body w with
    | (Ok a, w') => (Ok a, w')
    | (Raise e, w') => handler e w'
    end.

Definition modify (f : world -> world) : M unit := fun w => (Ok tt, f w).

(** Raise the exception the environment asks for, if any. *)
Definition fail_if (o : option exn) : M unit :=
  match o with
  | Some e => raise e
  | None => ret tt
  end.

Declare Scope py_scope.
Delimit Scope py_scope with py.
Notation "x <- m ;; k" := (bind m (fun x => k))
  (at level 100, m at next level, right associativity) : py_scope.
Notation "m ;; k" := (bind m (fun _ => k))
  (at level 100, right associativity) : py_scope.
Local Open Scope py_scope.

(** The exit status of the interpreter: an uncaught exception prints a
    traceback and exits with status 1. *)
Definition exit_status {A} (r : result A) : Z :=
  match r with
  | Ok _ => 0
  | Raise _ => 1
  end.

(** ** The script *)

Definition DEMO_URL : string := "https://opensheetmusicdisplay.github.io/demo/".
Definition DOWNLOAD_DIR : string := "scores".

(** [Response.raise_for_status()] of the requests library: client (4xx)
    and server (5xx) statuses raise [HTTPError], every other status
    returns.  The text of the error quotes [Response.url]. *)
Definition raise_for_status (r : response) : M unit :=
  if (400 <=? status_code r)%Z && (status_code r <? 500)%Z then
    raise (Exn HTTPError (PyStr.str_of_Z (status_code r) +:+ " Client Error: "
                            +:+ reason r +:+ " for url: " +:+ response_url r))
  else if (500 <=? status_code r)%Z && (status_code r <? 600)%Z then
    raise (Exn HTTPError (PyStr.str_of_Z (status_code r) +:+ " Server Error: "
                            +:+ reason r +:+ " for url: " +:+ response_url r))
  else ret tt.

(** [Response.ok]: [raise_for_status] would not raise. *)
Definition ok (r : response) : bool :=
  negb ((400 <=? status_code r)%Z && (status_code r <? 600)%Z).

Section Script.

Variable E : env.

(** What stops [print(line)].  Every encoding Python gives to standard
    output encodes ASCII text, so a line of ASCII characters is always
    printed; for any other line the environment says whether the
    encoding of standard output can take it. *)
Definition stdout_error (line : string) : option exn :=
  if PyStr.isascii line then None else stdout_rejects E line.

(** [print(line)] *)
Definition print (line : string) : M unit :=
  fail_if (stdout_error line) ;;
  modify (emit (EvPrint line)).

(** [os.makedirs(path, exist_ok=True)] *)
Definition os_makedirs (path : string) : M unit :=
  fail_if (makedirs_fails E path) ;;
  modify (emit (EvMakedirs path)).

(** [webdriver.Chrome(options=options)]: on success the browser
    process is running. *)
Definition webdriver_Chrome : M unit :=
  fail_if (chrome_fails E) ;;
  modify (fun w => emit EvBrowserStart (set_browser true w)).

Definition driver_get (url : string) : M unit :=
  fail_if (navigate_fails E url) ;;
  modify (emit (EvNavigate url)).

Definition time_sleep (seconds : nat) : M unit :=
  modify (emit (EvSleep seconds)).

Definition find_element_select : M unit := fail_if (select_missing E).

Definition find_elements_option : M (list web_element) :=
  match select_options E with
  | inl e => raise e
  | inr opts => ret opts
  end.

Definition get_attribute_value (opt : web_element) : M (option string) :=
  match attr_value opt with
  | inl e => raise e
  | inr v => ret v
  end.

(** [driver.quit()]: the browser process ends. *)
Definition driver_quit : M unit :=
  modify (fun w => emit EvBrowserQuit (set_browser false w)).

Definition requests_get (url : string) : M response :=
  modify (emit (EvGet url)) ;;
  match http_get E url with
  | inl e => raise e
  | inr r => ret r
  end.

(** [with open(dest, "wb") as f: f.write(data)].  Opening creates or
    truncates the file; a failing write leaves a prefix of the data. *)
Definition open_wb_write (dest : string) (data : bytes) : M unit :=
  fail_if (open_fails E dest) ;;
  modify (fun w => emit (EvOpen dest) (set_files (<[dest := []]> (files w)) w)) ;;
  match write_fails E dest data with
  | Some (n, e) =>
      modify (fun w => set_files (<[dest := take n data]> (files w)) w) ;;
      raise e
  | None =>
      modify (fun w =>
        emit (EvWrite dest data) (set_files (<[dest := data]> (files w)) w))
  end.

(** Lines 31-35: the filter loop over the option elements; [urls] is
    the list accumulated so far. *)
Fixpoint extract_urls (options : list web_element) (urls : list string)
  : M (list string) :=
  match options with
  | [] => ret urls
  | opt :: rest =>
      val <- get_attribute_value opt ;;
      if PyStr.truthy val
         && (PyStr.endswith (default EmptyString val) ".xml"
             || PyStr.endswith (default EmptyString val) ".mxl")
      then extract_urls rest (urls ++ [default EmptyString val])
      else extract_urls rest urls
  end.

(** [list(set(urls))]: the distinct elements, in the order in which
    the set happens to enumerate them. *)
Definition list_set (urls : list string) : list string :=
  elements (list_to_set urls : gset string).

(** Lines 20-40: the Link Extractor.  Lines 16-18 only build the
    option object passed to Chrome (headless, no GPU). *)
Definition link_extractor : M (list string) :=
  webdriver_Chrome ;;
  print "Loading demo page..." ;;
  driver_get DEMO_URL ;;
  time_sleep 3 ;;
  find_element_select ;;
  options <- find_elements_option ;;
  urls <- extract_urls options [] ;;
  driver_quit ;;
  ret (list_set urls).

(** Lines 45-53: the body of the download loop for one [url].  The
    [print] of line 53 runs in the handler, outside the [try]: an
    exception it raises is not caught. *)
Definition download_one (url : string) : M unit :=
  filename <- match last (PyStr.split "/" url) with
              | Some seg => ret seg
              | None => raise (Exn IndexError "list index out of range")
              end ;;
  let dest := os_path_join DOWNLOAD_DIR filename in
  try_except
    (r <- requests_get url ;;
     raise_for_status r ;;
     open_wb_write dest (content r))
    (fun e => print ("FAILED to download " +:+ url +:+ ": " +:+ exn_msg e)).

(** Lines 44-53: [for url in tqdm(urls)]; the progress bar goes to
    standard error and is not part of the trace. *)
Fixpoint download_files (urls : list string) : M unit :=
  match urls with
  | [] => ret tt
  | url :: rest => download_one url ;; download_files rest
  end.

(** Lines 44-55: the Bulk Fetcher. *)
Definition bulk_fetcher (urls : list string) : M unit :=
  download_files urls ;;
  print "Done!".

(** The whole script. *)
Definition main : M unit :=
  os_makedirs DOWNLOAD_DIR ;;
  urls <- link_extractor ;;
  print ("Found " +:+ PyStr.str_of_nat (length urls) +:+ " score URLs.") ;;
  bulk_fetcher urls.

End Script.

(** The state of the machine before the script starts. *)
Definition initial_world (fs : gmap string bytes) : world := World fs false [].

(** ** Specification vocabulary *)

(** The file name the loop derives from a URL (line 45) and the
    destination path (line 46). *)
Definition filename_of (url : string) : string :=
  default EmptyString (last (PyStr.split "/" url)).

Definition dest_of (url : string) : string :=
  os_path_join DOWNLOAD_DIR (filename_of url).

(** The recognized suffixes of line 34. *)
Definition recognized (url : string) : bool :=
  PyStr.endswith url ".xml" || PyStr.endswith url ".mxl".

(** A reference succeeds when the GET returns, the status passes
    [raise_for_status], and the file is opened and written in full;
    otherwise it fails. *)
Definition succeeds (E : env) (url : string) : bool :=
  match http_get E url with
  | inl _ => false
  | inr r =>
      ok r
      && bool_decide (open_fails E (dest_of url) = None)
      && bool_decide (write_fails E (dest_of url) (content r) = None)
  end.

(** Projections of a trace. *)
Definition gets (tr : list event) : list string :=
  omap (fun ev => match ev with EvGet u => Some u | _ => None end) tr.

Definition printed (tr : list event) : list string :=
  omap (fun ev => match ev with EvPrint l => Some l | _ => None end) tr.

Definition written (tr : list event) : list string :=
  omap (fun ev => match ev with EvWrite p _ => Some p | _ => None end) tr.

Definition is_failure_line (line : string) : bool :=
  PyStr.startswith line "FAILED to download ".

Definition failure_lines (tr : list event) : list string :=
  List.filter is_failure_line (printed tr).

Definition quits (tr : list event) : nat :=
  length (List.filter (fun ev => match ev with EvBrowserQuit => true | _ => false end) tr).

(** A reference fails when it does not succeed. *)
Definition fails (E : env) (url : string) : bool := negb (succeeds E url).

(** What processing [url] leaves at its destination path: [None] when
    the file system is not touched. *)
Definition stored (E : env) (url : string) : option bytes :=
  match http_get E url with
  | inl _ => None
  | inr r =>
      if ok r then
        match open_fails E (dest_of url) with
        | Some _ => None
        | None =>
            match write_fails E (dest_of url) (content r) with
            | Some (n, _) => Some (take n (content r))
            | None => Some (content r)
            end
        end
      else None
  end.

Definition store (E : env) (fs : gmap string bytes) (url : string)
  : gmap string bytes :=
  match stored E url with
  | Some data => <[dest_of url := data]> fs
  | None => fs
  end.

Definition failure_line (url msg : string) : string :=
  "FAILED to download " +:+ url +:+ ": " +:+ msg.

(** What line 34 requires of a retained value. *)
Definition retained_from (opts : list web_element) (u : string) : Prop :=
  u <> EmptyString /\ recognized u = true
  /\ exists o, o ∈ opts /\ attr_value o = inr (Some u).



(** ** Concrete runs *)

Definition option_value (s : string) : web_element := WebElement (inr (Some s)).

(** An environment in which the browser works, the page offers [opts],
    every GET is answered by [get], the disk never fails and standard
    output encodes every line. *)
Definition env_of (opts : list web_element) (get : string -> exn + response) : env :=
  Env (fun _ => None) None (fun _ => None) None (inr opts) get
      (fun _ => None) (fun _ _ => None) (fun _ => None).

Definition sample_options : list web_element :=
  [option_value "https://host/path/a.xml"; option_value "https://host/path/song.mxl";
   option_value "https://host/path/c.pdf"; option_value "https://host/path/a.xml";
   option_value "https://host/path/A.XML"; option_value EmptyString; WebElement (inr None)].

Definition sample_get (url : string) : exn + response :=
  if String.eqb url "https://host/path/song.mxl"
  then inr (Response 404 "Not Found" url [])
  else inr (Response 200 "OK" url [Byte.x3c; Byte.x3f]).

Definition E_sample : env := env_of sample_options sample_get.

(** The references of that page, the failing one first. *)
Definition sample_urls : list string :=
  ["https://host/path/song.mxl"; "https://host/path/a.xml"].

(** The page has no [<select>] element. *)
Definition E_no_select : env :=
  Env (fun _ => None) None (fun _ => None)
      (Some (Exn NoSuchElementException "no such element: select"))
      (inr []) sample_get (fun _ => None) (fun _ _ => None) (fun _ => None).


(** Two hosts serve different scores under the same file name. *)
Definition collide_urls : list string :=
  ["https://a.example/x.xml"; "https://b.example/x.xml"].

Definition collide_get (url : string) : exn + response :=
  if String.eqb url "https://a.example/x.xml"
  then inr (Response 200 "OK" url [Byte.x01])
  else inr (Response 200 "OK" url [Byte.x02]).

Definition E_collide : env := env_of (map option_value collide_urls) collide_get.

(** Every download fails: the network is down. *)
Definition E_offline : env :=
  env_of sample_options
         (fun _ => inl (Exn RequestException "Connection refused")).

(** ** Pure descriptions of the two stages *)

(** The test of line 34 on the value of one option. *)
Definition qualifies (val : option string) : bool :=
  PyStr.truthy val
  && (PyStr.endswith (default EmptyString val) ".xml"
      || PyStr.endswith (default EmptyString val) ".mxl").

(** The values the filter loop appends, in page order, when every
    attribute read returns. *)
Definition kept_values (opts : list web_element) : list string :=
  flat_map (fun o => match attr_value o with
                     | inr val => if qualifies val then [default EmptyString val] else []
                     | inl _ => []
                     end) opts.

(** The exception of the first option whose attribute read raises. *)
Fixpoint first_attr_error (opts : list web_element) : option exn :=
  match opts with
  | [] => None
  | o :: rest =>
      match attr_value o with
      | inl e => Some e
      | inr _ => first_attr_error rest
      end
  end.

(** The text of the [HTTPError] that [raise_for_status] raises. *)
Definition http_error_msg (r : response) : string :=
  PyStr.str_of_Z (status_code r)
  +:+ (if (status_code r <? 500)%Z then " Client Error: " else " Server Error: ")
  +:+ reason r +:+ " for url: " +:+ response_url r.

(** The exception a failing reference ends with: the one of the first
    step of lines 48-51 that raises. *)
Definition failure_exn (E : env) (url : string) : option exn :=
  match http_get E url with
  | inl e => Some e
  | inr r =>
      if ok r then
        match open_fails E (dest_of url) with
        | Some e => Some e
        | None =>
            match write_fails E (dest_of url) (content r) with
            | Some (_, e) => Some e
            | None => None
            end
        end
      else Some (Exn HTTPError (http_error_msg r))
  end.

(** The failure notice of line 53 for a failing reference. *)
Definition notice (E : env) (url : string) : option string :=
  match failure_exn E url with
  | Some e => Some (failure_line url (exn_msg e))
  | None => None
  end.

(** The exception that escapes the iteration for [url]: the one raised
    by the [print] of the handler when standard output cannot take the
    failure notice. *)
Definition item_abort (E : env) (url : string) : option exn :=
  match notice E url with
  | Some line => stdout_error E line
  | None => None
  end.

(** The events of lines 48-51 for [url], before any notice. *)
Definition item_actions (E : env) (url : string) : list event :=
  EvGet url ::
  match http_get E url with
  | inl _ => []
  | inr r =>
      if ok r then
        match open_fails E (dest_of url) with
        | Some _ => []
        | None =>
            EvOpen (dest_of url) ::
            match write_fails E (dest_of url) (content r) with
            | Some _ => []
            | None => [EvWrite (dest_of url) (content r)]
            end
        end
      else []
  end.

(** The events of one iteration of the download loop that returns. *)
Definition item_events (E : env) (url : string) : list event :=
  item_actions E url ++
  match notice E url with
  | Some line => [EvPrint line]
  | None => []
  end.

(** The exception that ends the download loop, if one does. *)
Fixpoint loop_abort (E : env) (urls : list string) : option exn :=
  match urls with
  | [] => None
  | u :: rest =>
      match item_abort E u with
      | Some e => Some e
      | None => loop_abort E rest
      end
  end.

(** The references the loop gets to: all of them, or those up to and
    including the one whose notice cannot be printed. *)
Fixpoint attempted (E : env) (urls : list string) : list string :=
  match urls with
  | [] => []
  | u :: rest =>
      u :: match item_abort E u with
           | Some _ => []
           | None => attempted E rest
           end
  end.

(** The events of the download loop. *)
Fixpoint loop_events (E : env) (urls : list string) : list event :=
  match urls with
  | [] => []
  | u :: rest =>
      match item_abort E u with
      | Some _ => item_actions E u
      | None => item_events E u ++ loop_events E rest
      end
  end.

(** A reference fails at the fetch: [requests.get] raises, or the status
    of the response is one that [raise_for_status] rejects. *)
Definition fetch_fails (E : env) (url : string) : bool :=
  match http_get E url with
  | inl _ => true
  | inr r => negb (ok r)
  end.

(** A success status in the sense of HTTP: 200 to 299. *)
Definition success_status (r : response) : bool :=
  (200 <=? status_code r)%Z && (status_code r <? 300)%Z.

(** The events of the extraction stage up to the point it has reached. *)
Definition LOADING : list event :=
  [EvBrowserStart; EvPrint "Loading demo page..."].

Definition LOADED : list event :=
  [EvBrowserStart; EvPrint "Loading demo page..."; EvNavigate DEMO_URL; EvSleep 3].

(** [sep.join(segments)] *)
Fixpoint str_join (sep : string) (segments : list string) : string :=
  match segments with
  | [] => EmptyString
  | [seg] => seg
  | seg :: rest => seg +:+ sep +:+ str_join sep rest
  end.

(** The events of the browser process. *)
Definition browser_events (tr : list event) : list event :=
  List.filter (fun ev => match ev with
                         | EvBrowserStart | EvNavigate _ | EvBrowserQuit => true
                         | _ => false
                         end) tr.


(** The third option of the page can no longer be read. *)
Definition E_stale_option : env :=
  env_of [option_value "https://host/path/a.xml"; option_value "https://host/path/c.pdf";
          WebElement (inl (Exn WebDriverException "stale element reference"))]
         sample_get.

(** The disk fills up while the body of a.xml is written: one byte is
    stored. *)
Definition E_disk_full : env :=
  Env (fun _ => None) None (fun _ => None) None (inr sample_options) sample_get
      (fun _ => None)
      (fun _ _ => Some (1, Exn OSError "[Errno 28] No space left on device"))
      (fun _ => None).

(** The output directory is read-only. *)
Definition E_read_only : env :=
  Env (fun _ => None) None (fun _ => None) None (inr sample_options) sample_get
      (fun _ => Some (Exn OSError "[Errno 13] Permission denied"))
      (fun _ _ => None) (fun _ => None).

(** A reference whose name has a character outside ASCII ("caf" followed
    by e-acute), answered with 404, and a second reference that would
    succeed; standard output is an ASCII terminal. *)
Definition cafe_url : string :=
  "https://host/path/caf"
  +:+ String (Ascii.ascii_of_nat 195) (String (Ascii.ascii_of_nat 169) ".mxl").

Definition cafe_urls : list string := [cafe_url; "https://host/path/a.xml"].

Definition cafe_get (url : string) : exn + response :=
  if String.eqb url cafe_url
  then inr (Response 404 "Not Found" url [])
  else inr (Response 200 "OK" url [Byte.x3c; Byte.x3f]).

Definition ascii_codec_error : exn :=
  Exn UnicodeEncodeError "'ascii' codec can't encode character".

Definition E_ascii_stdout : env :=
  Env (fun _ => None) None (fun _ => None) None
      (inr (map option_value cafe_urls)) cafe_get
      (fun _ => None) (fun _ _ => None) (fun _ => Some ascii_codec_error).

(** The server answers 304 Not Modified, with a body. *)
Definition not_modified_get (url : string) : exn + response :=
  inr (Response 304 "Not Modified" url [Byte.x6f; Byte.x6c; Byte.x64]).

Definition E_not_modified : env :=
  env_of [option_value "https://host/path/song.mxl"] not_modified_get.

(** * Proofs *)

(** ** The string operations on examples *)

Example endswith_ex1 : PyStr.endswith "a/b.xml" ".xml" = true.
Proof. reflexivity. Qed.
Example endswith_ex2 : PyStr.endswith "xml" ".xml" = false.
Proof. reflexivity. Qed.
Example endswith_ex3 : PyStr.endswith "A.XML" ".xml" = false.
Proof. reflexivity. Qed.
Example split_ex1 : PyStr.split "/" "https://host/path/song.mxl"
                    = ["https:"; EmptyString; "host"; "path"; "song.mxl"].
Proof. reflexivity. Qed.
Example split_ex2 : PyStr.split "/" "a/" = ["a"; EmptyString].
Proof. reflexivity. Qed.
Example join_ex1 : os_path_join "scores" "song.mxl" = "scores/song.mxl".
Proof. reflexivity. Qed.

(** The example of the specification: four raw options, one of them
    twice and one with a foreign suffix. *)
Example reference_set_ex1 :
  fst (link_extractor
         (env_of (map option_value ["a.xml"; "b.mxl"; "c.pdf"; "a.xml"]) sample_get)
         (initial_world ∅))
  = Ok ["a.xml"; "b.mxl"].
Proof. vm_compute. reflexivity. Qed.

(** The example of the specification: a 404 for one reference. *)
Example download_404_ex1 :
  download_files E_sample ["https://host/path/song.mxl"] (initial_world ∅)
  = (Ok tt,
     World ∅ false
       [EvGet "https://host/path/song.mxl";
        EvPrint "FAILED to download https://host/path/song.mxl: 404 Client Error: Not Found for url: https://host/path/song.mxl"]).
Proof. vm_compute. reflexivity. Qed.

(** ** Facts about the string operations *)

Module PyStrFacts.
Import PyStr.

Lemma app_cons c (s t : string) : String c s +:+ t = String c (s +:+ t).
Proof. reflexivity. Qed.

Lemma app_empty_r (s : string) : s +:+ EmptyString = s.
Proof. induction s as [|c s IH]; [reflexivity|]. rewrite app_cons, IH. reflexivity. Qed.

Lemma length_app (s t : string) :
  String.length (s +:+ t) = String.length s + String.length t.
Proof.
  induction s as [|c s IH]; [reflexivity|].
  rewrite app_cons. simpl. rewrite IH. reflexivity.
Qed.

Lemma substring_whole (s : string) : substring 0 (String.length s) s = s.
Proof. induction s as [|c s IH]; simpl; [reflexivity|]. rewrite IH. reflexivity. Qed.

Lemma substring_after (p q : string) :
  substring (String.length p) (String.length q) (p +:+ q) = q.
Proof.
  induction p as [|c p IH]; [apply substring_whole|].
  rewrite app_cons. simpl. exact IH.
Qed.

Lemma substring_cut (s : string) (k : nat) :
  k <= String.length s ->
  s = substring 0 k s +:+ substring k (String.length s - k) s.
Proof.
  revert k. induction s as [|c s IH]; intros [|k] Hk; simpl in *.
  - reflexivity.
  - lia.
  - rewrite substring_whole. reflexivity.
  - rewrite app_cons. f_equal. apply IH. lia.
Qed.

(** [endswith] holds exactly of the strings that are some prefix
    followed by the suffix. *)
Lemma endswith_spec (s suffix : string) :
  endswith s suffix = true <-> exists p, s = p +:+ suffix.
Proof.
  unfold endswith. split.
  - intros H. apply andb_true_iff in H as [Hlen Heq].
    apply Nat.leb_le in Hlen. apply String.eqb_eq in Heq.
    pose proof (substring_cut s (String.length s - String.length suffix)
                  ltac:(lia)) as Hcut.
    replace (String.length s - (String.length s - String.length suffix))
      with (String.length suffix) in Hcut by lia.
    rewrite Heq in Hcut. eauto.
  - intros [p ->]. rewrite length_app. apply andb_true_iff. split.
    + apply Nat.leb_le. lia.
    + replace (String.length p + String.length suffix - String.length suffix)
        with (String.length p) by lia.
      rewrite substring_after. apply String.eqb_refl.
Qed.

Lemma endswith_length (s suffix : string) :
  endswith s suffix = true -> String.length suffix <= String.length s.
Proof.
  unfold endswith. intros H. apply andb_true_iff in H as [H _].
  apply Nat.leb_le in H. exact H.
Qed.

Lemma split_not_nil sep s : split sep s <> [].
Proof.
  destruct s as [|c s]; simpl; [discriminate|].
  destruct (Ascii.eqb c sep); [discriminate|].
  destruct (split sep s); discriminate.
Qed.

(** Indexing the result of [split] with [-1] never raises. *)
Lemma split_last_is_Some sep s : is_Some (last (split sep s)).
Proof.
  destruct (last (split sep s)) eqn:H; [eauto|].
  apply last_None in H. destruct (split_not_nil _ _ H).
Qed.

(** No segment of [split] contains the separator. *)
Lemma split_segments_clean sep s :
  Forall (fun seg => contains sep seg = false) (split sep s).
Proof.
  induction s as [|c s IH]; simpl.
  - repeat constructor.
  - destruct (Ascii.eqb c sep) eqn:Hc.
    + constructor; [reflexivity | exact IH].
    + destruct (split sep s) as [|seg segs].
      * repeat constructor. simpl. rewrite Hc. reflexivity.
      * inversion IH as [|? ? Hseg Hsegs]; subst.
        constructor; [|exact Hsegs]. simpl. rewrite Hc. exact Hseg.
Qed.

Lemma last_segment_clean sep s seg :
  last (split sep s) = Some seg -> contains sep seg = false.
Proof.
  intros H. pose proof (split_segments_clean sep s) as HF.
  rewrite Forall_forall in HF. apply HF.
  apply last_Some in H as [l' ->].
  apply elem_of_app. right. apply list_elem_of_singleton. reflexivity.
Qed.

Lemma split_clean sep q : contains sep q = false -> split sep q = [q].
Proof.
  induction q as [|c q IH]; simpl; [reflexivity|].
  intros H. apply orb_false_iff in H as [Hc Hq].
  rewrite Hc, (IH Hq). reflexivity.
Qed.

(** Appending separator-free text only extends the last segment. *)
Lemma split_app sep p q init seg :
  contains sep q = false ->
  split sep p = (init ++ [seg])%list ->
  split sep (p +:+ q) = (init ++ [seg +:+ q])%list.
Proof.
  intros Hq. revert init seg.
  induction p as [|c p IH]; intros init seg H.
  - simpl in H. destruct init as [|i init]; simpl in H.
    + injection H as <-. apply split_clean, Hq.
    + destruct init; discriminate.
  - rewrite app_cons. simpl in *. destruct (Ascii.eqb c sep).
    + destruct init as [|i init]; simpl in H.
      * injection H as _ H. destruct (split_not_nil _ _ H).
      * injection H as <- H. rewrite (IH _ _ H). reflexivity.
    + destruct (split sep p) as [|x xs] eqn:Hp;
        [destruct (split_not_nil _ _ Hp)|].
      destruct init as [|i init]; simpl in H.
      * injection H as <- ->. rewrite (IH [] x eq_refl). reflexivity.
      * injection H as <- ->. rewrite (IH (x :: init) seg eq_refl). reflexivity.
Qed.

Lemma last_split_app sep p q seg :
  contains sep q = false ->
  last (split sep p) = Some seg ->
  last (split sep (p +:+ q)) = Some (seg +:+ q).
Proof.
  intros Hq Hlast. apply last_Some in Hlast as [init Hinit].
  rewrite (split_app _ _ _ _ _ Hq Hinit). apply last_snoc.
Qed.

End PyStrFacts.

(** ** Printing *)

Lemma isascii_app (a b : string) :
  PyStr.isascii (a +:+ b) = PyStr.isascii a && PyStr.isascii b.
Proof.
  induction a as [|c a IH]; [reflexivity|].
  rewrite PyStrFacts.app_cons. simpl. rewrite IH. apply andb_assoc.
Qed.

Lemma isascii_uint (d : Decimal.uint) :
  PyStr.isascii (NilEmpty.string_of_uint d) = true.
Proof. induction d; simpl; [reflexivity|exact IHd..]. Qed.

Lemma found_line_ascii (n : nat) :
  PyStr.isascii ("Found " +:+ PyStr.str_of_nat n +:+ " score URLs.") = true.
Proof.
  rewrite !isascii_app. unfold PyStr.str_of_nat. rewrite isascii_uint. reflexivity.
Qed.

Lemma print_eq E line w :
  print E line w
  = match stdout_error E line with
    | Some e => (Raise e, w)
    | None => (Ok tt, emit (EvPrint line) w)
    end.
Proof.
  unfold print, bind, fail_if. destruct (stdout_error E line); reflexivity.
Qed.

Lemma print_ascii E line w :
  PyStr.isascii line = true -> print E line w = (Ok tt, emit (EvPrint line) w).
Proof.
  intros H. rewrite print_eq. unfold stdout_error. rewrite H. reflexivity.
Qed.

(** ** One iteration of the download loop *)

Lemma download_one_unfold E url w :
  download_one E url w =
  try_except
    (r <- requests_get E url ;;
     raise_for_status r ;;
     open_wb_write E (dest_of url) (content r))
    (fun e => print E ("FAILED to download " +:+ url +:+ ": " +:+ exn_msg e)) w.
Proof.
  unfold download_one, dest_of, filename_of.
  destruct (PyStrFacts.split_last_is_Some "/" url) as [seg ->].
  reflexivity.
Qed.

Lemma raise_for_status_ok r w :
  ok r = true -> raise_for_status r w = (Ok tt, w).
Proof.
  unfold ok, raise_for_status. intros H.
  apply negb_true_iff in H.
  destruct (400 <=? status_code r)%Z eqn:H4; simpl in *.
  - rewrite H.
    destruct (status_code r <? 500)%Z eqn:H5; simpl.
    + apply Z.ltb_lt in H5. apply Z.ltb_ge in H. lia.
    + destruct (500 <=? status_code r)%Z; reflexivity.
  - destruct (500 <=? status_code r)%Z eqn:H5; simpl; [|reflexivity].
    apply Z.leb_le in H5. apply Z.leb_gt in H4. lia.
Qed.

Lemma raise_for_status_msg r w :
  ok r = false ->
  raise_for_status r w = (Raise (Exn HTTPError (http_error_msg r)), w).
Proof.
  unfold ok, raise_for_status, http_error_msg. intros H.
  apply negb_false_iff in H. apply andb_true_iff in H as [H4 H6].
  rewrite H4. simpl.
  destruct (status_code r <? 500)%Z eqn:H5; simpl; [reflexivity|].
  rewrite H6. replace (500 <=? status_code r)%Z with true; [reflexivity|].
  symmetry. apply Z.leb_le. apply Z.ltb_ge in H5. exact H5.
Qed.

Lemma failure_line_is_failure url msg :
  is_failure_line (failure_line url msg) = true.
Proof. destruct url; reflexivity. Qed.

(** The handler of line 53 on the exception [e]. *)
Lemma handler_eq E url e w :
  print E ("FAILED to download " +:+ url +:+ ": " +:+ exn_msg e) w
  = match stdout_error E (failure_line url (exn_msg e)) with
    | Some e' => (Raise e', w)
    | None => (Ok tt, emit (EvPrint (failure_line url (exn_msg e))) w)
    end.
Proof. apply print_eq. Qed.

(** One iteration in one equation. *)
Lemma download_one_eq E url w :
  download_one E url w
  = match item_abort E url with
    | None =>
        (Ok tt, World (store E (files w) url) (browser_running w)
                      (trace w ++ item_events E url))
    | Some e =>
        (Raise e, World (store E (files w) url) (browser_running w)
                        (trace w ++ item_actions E url))
    end.
Proof.
  rewrite download_one_unfold.
  unfold try_except, bind, requests_get, modify, bind.
  unfold store, stored, item_abort, notice, item_events, item_actions, notice, failure_exn.
  destruct (http_get E url) as [e|r] eqn:Hget.
  - unfold raise. rewrite handler_eq.
    destruct (stdout_error E (failure_line url (exn_msg e)));
      unfold emit; simpl; rewrite <- ?app_assoc; reflexivity.
  - unfold ret. destruct (ok r) eqn:Hok.
    + rewrite (raise_for_status_ok _ _ Hok). unfold open_wb_write, bind, fail_if.
      destruct (open_fails E (dest_of url)) as [e|] eqn:Ho.
      * unfold raise. rewrite handler_eq.
        destruct (stdout_error E (failure_line url (exn_msg e)));
          unfold emit; simpl; rewrite <- ?app_assoc; reflexivity.
      * unfold ret, modify.
        destruct (write_fails E (dest_of url) (content r)) as [[n e]|] eqn:Hw.
        -- unfold bind, modify, raise. rewrite handler_eq.
           destruct (stdout_error E (failure_line url (exn_msg e)));
             unfold emit, set_files; simpl;
             rewrite insert_insert_eq, <- ?app_assoc; reflexivity.
        -- unfold emit, set_files. simpl.
           rewrite insert_insert_eq, <- !app_assoc. reflexivity.
    + rewrite (raise_for_status_msg _ _ Hok). rewrite handler_eq.
      destruct (stdout_error E (failure_line url (exn_msg (Exn HTTPError (http_error_msg r)))));
        unfold emit; simpl; rewrite <- ?app_assoc; reflexivity.
Qed.

Lemma succeeds_no_failure E url :
  succeeds E url = true <-> failure_exn E url = None.
Proof.
  unfold succeeds, failure_exn.
  destruct (http_get E url) as [e|r]; [split; discriminate|].
  destruct (ok r); [|split; discriminate].
  destruct (open_fails E (dest_of url)) as [e|]; [split; discriminate|].
  destruct (write_fails E (dest_of url) (content r)) as [[n e]|];
    split; try discriminate; reflexivity.
Qed.

Lemma succeeds_no_abort E url : succeeds E url = true -> item_abort E url = None.
Proof.
  intros H. apply succeeds_no_failure in H. unfold item_abort, notice.
  rewrite H. reflexivity.
Qed.

Lemma download_one_success E url w :
  succeeds E url = true ->
  exists r, http_get E url = inr r /\ stored E url = Some (content r) /\
    download_one E url w =
    (Ok tt,
     World (<[dest_of url := content r]> (files w)) (browser_running w)
           (trace w ++ [EvGet url; EvOpen (dest_of url);
                        EvWrite (dest_of url) (content r)])).
Proof.
  intros H. rewrite download_one_eq, (succeeds_no_abort _ _ H).
  unfold store, item_events, item_actions, notice.
  rewrite (proj1 (succeeds_no_failure _ _) H).
  revert H. unfold succeeds, stored.
  destruct (http_get E url) as [e|r]; [discriminate|].
  intros H. apply andb_true_iff in H as [H Hw]. apply andb_true_iff in H as [Hok Ho].
  apply bool_decide_eq_true in Hw, Ho.
  exists r. rewrite Hok, Ho, Hw. do 2 (split; [reflexivity|]).
  simpl. reflexivity.
Qed.

(** ** The download loop *)

Lemma gets_app a b : gets (a ++ b) = (gets a ++ gets b)%list.
Proof. apply omap_app. Qed.

Lemma printed_app a b : printed (a ++ b) = (printed a ++ printed b)%list.
Proof. apply omap_app. Qed.

Lemma written_app a b : written (a ++ b) = (written a ++ written b)%list.
Proof. apply omap_app. Qed.

Lemma failure_lines_app a b :
  failure_lines (a ++ b) = (failure_lines a ++ failure_lines b)%list.
Proof. unfold failure_lines. rewrite printed_app. apply List.filter_app. Qed.

Lemma browser_events_app a b :
  browser_events (a ++ b) = (browser_events a ++ browser_events b)%list.
Proof. apply List.filter_app. Qed.

(** The loop in one equation. *)
Lemma download_files_eq E urls w :
  download_files E urls w
  = (match loop_abort E urls with
     | Some e => Raise e
     | None => Ok tt
     end,
     World (foldl (store E) (files w) (attempted E urls)) (browser_running w)
           (trace w ++ loop_events E urls)).
Proof.
  revert w. induction urls as [|u rest IH]; intros w; simpl.
  - rewrite app_nil_r. destruct w; reflexivity.
  - unfold bind. rewrite download_one_eq.
    destruct (item_abort E u) as [e|]; [reflexivity|].
    rewrite IH. simpl. rewrite <- app_assoc. reflexivity.
Qed.

Lemma bulk_fetcher_eq E urls w :
  bulk_fetcher E urls w
  = match loop_abort E urls with
    | Some e =>
        (Raise e,
         World (foldl (store E) (files w) (attempted E urls)) (browser_running w)
               (trace w ++ loop_events E urls))
    | None =>
        (Ok tt,
         World (foldl (store E) (files w) (attempted E urls)) (browser_running w)
               (trace w ++ loop_events E urls ++ [EvPrint "Done!"]))
    end.
Proof.
  unfold bulk_fetcher, bind. rewrite download_files_eq.
  destruct (loop_abort E urls); [reflexivity|].
  rewrite print_ascii by reflexivity.
  unfold emit. simpl. rewrite <- app_assoc. reflexivity.
Qed.

Lemma loop_abort_None E urls :
  loop_abort E urls = None <-> forall u, u ∈ urls -> item_abort E u = None.
Proof.
  induction urls as [|v rest IH]; simpl.
  - split; [intros _ u Hu; apply elem_of_nil in Hu; destruct Hu|reflexivity].
  - destruct (item_abort E v) as [e|] eqn:Hv.
    + split; [discriminate|]. intros H.
      rewrite <- Hv. apply H, list_elem_of_here.
    + rewrite IH. split.
      * intros H u Hu. apply elem_of_cons in Hu as [->|Hu]; [exact Hv|apply H, Hu].
      * intros H u Hu. apply H, list_elem_of_further, Hu.
Qed.

Lemma loop_completes E urls :
  loop_abort E urls = None ->
  attempted E urls = urls
  /\ loop_events E urls = concat (map (item_events E) urls).
Proof.
  induction urls as [|v rest IH]; simpl; [split; reflexivity|].
  destruct (item_abort E v); [discriminate|].
  intros H. destruct (IH H) as [-> ->]. split; reflexivity.
Qed.

Lemma attempted_elem E urls u : u ∈ attempted E urls -> u ∈ urls.
Proof.
  induction urls as [|v rest IH]; simpl; [trivial|].
  intros Hu. apply elem_of_cons in Hu as [->|Hu]; [apply list_elem_of_here|].
  apply list_elem_of_further. destruct (item_abort E v).
  - apply elem_of_nil in Hu. destruct Hu.
  - apply IH, Hu.
Qed.

Lemma attempted_prefix E urls : attempted E urls `prefix_of` urls.
Proof.
  induction urls as [|v rest IH]; simpl; [reflexivity|].
  apply prefix_cons. destruct (item_abort E v); [apply prefix_nil|exact IH].
Qed.

Lemma item_actions_gets E u : gets (item_actions E u) = [u].
Proof.
  unfold item_actions. destruct (http_get E u) as [e|r]; [reflexivity|].
  destruct (ok r); [|reflexivity].
  destruct (open_fails E (dest_of u)); [reflexivity|].
  destruct (write_fails E (dest_of u) (content r)) as [[n e]|]; reflexivity.
Qed.

Lemma item_events_gets E u : gets (item_events E u) = [u].
Proof.
  unfold item_events. rewrite gets_app, item_actions_gets.
  destruct (notice E u); reflexivity.
Qed.

Lemma item_actions_no_browser E u : browser_events (item_actions E u) = [].
Proof.
  unfold item_actions. destruct (http_get E u) as [e|r]; [reflexivity|].
  destruct (ok r); [|reflexivity].
  destruct (open_fails E (dest_of u)); [reflexivity|].
  destruct (write_fails E (dest_of u) (content r)) as [[n e]|]; reflexivity.
Qed.

Lemma item_events_no_browser E u : browser_events (item_events E u) = [].
Proof.
  unfold item_events. rewrite browser_events_app, item_actions_no_browser.
  destruct (notice E u); reflexivity.
Qed.

Lemma loop_events_attempted E urls : gets (loop_events E urls) = attempted E urls.
Proof.
  induction urls as [|u rest IH]; [reflexivity|]. cbn [loop_events attempted].
  destruct (item_abort E u); [apply item_actions_gets|].
  rewrite gets_app, item_events_gets, IH. reflexivity.
Qed.

Lemma loop_events_no_browser E urls : browser_events (loop_events E urls) = [].
Proof.
  induction urls as [|u rest IH]; [reflexivity|]. cbn [loop_events].
  destruct (item_abort E u); [apply item_actions_no_browser|].
  rewrite browser_events_app, item_events_no_browser, IH. reflexivity.
Qed.


Lemma item_events_printed E u :
  printed (item_events E u)
  = match notice E u with
    | Some line => [line]
    | None => []
    end.
Proof.
  unfold item_events. rewrite printed_app.
  assert (Hact : printed (item_actions E u) = []).
  { unfold item_actions. destruct (http_get E u) as [e|r]; [reflexivity|].
    destruct (ok r); [|reflexivity].
    destruct (open_fails E (dest_of u)); [reflexivity|].
    destruct (write_fails E (dest_of u) (content r)) as [[n e]|]; reflexivity. }
  rewrite Hact. destruct (notice E u); reflexivity.
Qed.

Lemma fails_iff_failure_exn E u : fails E u = true <-> is_Some (failure_exn E u).
Proof.
  unfold fails. rewrite negb_true_iff, <- not_true_iff_false, succeeds_no_failure.
  destruct (failure_exn E u); split; eauto; try congruence.
  intros [? ?]. discriminate.
Qed.

Lemma notice_iff_fails E u : is_Some (notice E u) <-> fails E u = true.
Proof.
  rewrite fails_iff_failure_exn. unfold notice.
  destruct (failure_exn E u); split; intros [? ?]; eauto; discriminate.
Qed.


Lemma loop_printed E urls :
  printed (concat (map (item_events E) urls))
  = omap (notice E) urls.
Proof.
  induction urls as [|u rest IH]; [reflexivity|].
  change (concat (map (item_events E) (u :: rest)))
    with (item_events E u ++ concat (map (item_events E) rest))%list.
  rewrite printed_app, item_events_printed, IH. cbn [omap list_omap].
  destruct (notice E u); reflexivity.
Qed.

Lemma notices_are_failure_lines E urls :
  List.filter is_failure_line (omap (notice E) urls) = omap (notice E) urls.
Proof.
  induction urls as [|u rest IH]; [reflexivity|]. cbn [omap list_omap].
  destruct (notice E u) as [line|] eqn:Hn; [|exact IH].
  assert (Hline : is_failure_line line = true).
  { unfold notice in Hn. destruct (failure_exn E u) as [e|]; [|discriminate].
    injection Hn as <-. apply failure_line_is_failure. }
  cbn [List.filter]. rewrite Hline. f_equal. exact IH.
Qed.

Lemma notices_length E urls :
  length (omap (notice E) urls) = length (List.filter (fails E) urls).
Proof.
  induction urls as [|u rest IH]; [reflexivity|].
  cbn [omap list_omap List.filter].
  pose proof (notice_iff_fails E u) as Hiff.
  destruct (notice E u) as [line|].
  - rewrite (proj1 Hiff) by eauto. simpl. f_equal. exact IH.
  - destruct (fails E u); [|exact IH].
    destruct (proj2 Hiff eq_refl) as [? ?]. discriminate.
Qed.
(** ** The extraction stage *)

Lemma qualifies_Some s :
  qualifies (Some s) = true <-> s <> EmptyString /\ recognized s = true.
Proof.
  unfold qualifies, recognized. simpl. rewrite andb_true_iff, negb_true_iff.
  split; intros [Hne Hrec]; (split; [|exact Hrec]).
  - intros ->. discriminate.
  - apply String.eqb_neq, Hne.
Qed.

Lemma elem_of_kept_values opts u :
  u ∈ kept_values opts <-> retained_from opts u.
Proof.
  unfold kept_values, retained_from.
  rewrite (list_elem_of_In _ u), in_flat_map. split.
  - intros (o & Hin & Hu). apply list_elem_of_In in Hin.
    destruct (attr_value o) as [e|val] eqn:Hval; [destruct Hu|].
    destruct (qualifies val) eqn:Hq; [|destruct Hu].
    destruct Hu as [<-|[]].
    destruct val as [s|]; [|discriminate]. simpl.
    apply qualifies_Some in Hq as [Hne Hrec]. eauto.
  - intros (Hne & Hrec & o & Hin & Hval). exists o.
    split; [apply list_elem_of_In, Hin|].
    rewrite Hval, (proj2 (qualifies_Some u) (conj Hne Hrec)). left. reflexivity.
Qed.

Lemma first_attr_error_elem opts o e :
  o ∈ opts -> attr_value o = inl e -> first_attr_error opts <> None.
Proof.
  induction opts as [|o' rest IH]; intros Hin Hval.
  - apply elem_of_nil in Hin. destruct Hin.
  - simpl. apply elem_of_cons in Hin as [<-|Hin].
    + rewrite Hval. discriminate.
    + destruct (attr_value o'); [discriminate|]. apply IH; assumption.
Qed.


Lemma kept_values_retained opts : Forall (retained_from opts) (kept_values opts).
Proof. apply Forall_forall. intros u Hu. apply elem_of_kept_values, Hu. Qed.

Lemma extract_urls_eq opts acc w :
  extract_urls opts acc w
  = match first_attr_error opts with
    | Some e => (Raise e, w)
    | None => (Ok (acc ++ kept_values opts)%list, w)
    end.
Proof.
  revert acc. induction opts as [|o rest IH]; intros acc; simpl.
  - rewrite app_nil_r. reflexivity.
  - unfold bind, get_attribute_value.
    destruct (attr_value o) as [e|val] eqn:Hval; [reflexivity|].
    unfold ret.
    change (PyStr.truthy val
            && (PyStr.endswith (default EmptyString val) ".xml"
                || PyStr.endswith (default EmptyString val) ".mxl"))
      with (qualifies val).
    fold (kept_values rest).
    destruct (qualifies val); rewrite IH;
      destruct (first_attr_error rest); try reflexivity.
    rewrite <- app_assoc. reflexivity.
Qed.

Lemma link_extractor_eq E w :
  link_extractor E w
  = match chrome_fails E with
    | Some e => (Raise e, w)
    | None =>
        match navigate_fails E DEMO_URL with
        | Some e => (Raise e, World (files w) true (trace w ++ LOADING))
        | None =>
            match select_missing E with
            | Some e => (Raise e, World (files w) true (trace w ++ LOADED))
            | None =>
                match select_options E with
                | inl e => (Raise e, World (files w) true (trace w ++ LOADED))
                | inr opts =>
                    match first_attr_error opts with
                    | Some e => (Raise e, World (files w) true (trace w ++ LOADED))
                    | None =>
                        (Ok (list_set (kept_values opts)),
                         World (files w) false
                               (trace w ++ LOADED ++ [EvBrowserQuit]))
                    end
                end
            end
        end
    end.
Proof.
  unfold link_extractor, bind, webdriver_Chrome, bind, fail_if, LOADING, LOADED.
  destruct (chrome_fails E) as [e|]; [reflexivity|].
  unfold ret, modify. rewrite print_ascii by reflexivity.
  unfold driver_get, bind, fail_if.
  destruct (navigate_fails E DEMO_URL) as [e|].
  { unfold raise, emit, set_browser. simpl. rewrite <- app_assoc. reflexivity. }
  unfold ret, modify, time_sleep, modify, find_element_select, fail_if.
  destruct (select_missing E) as [e|].
  { unfold raise, emit, set_browser. simpl. rewrite <- !app_assoc. reflexivity. }
  unfold ret, find_elements_option.
  destruct (select_options E) as [e|opts].
  { unfold raise, emit, set_browser. simpl. rewrite <- !app_assoc. reflexivity. }
  unfold ret. rewrite extract_urls_eq.
  destruct (first_attr_error opts) as [e|].
  - unfold emit, set_browser. simpl. rewrite <- !app_assoc. reflexivity.
  - unfold driver_quit, modify, emit, set_browser. simpl.
    rewrite <- !app_assoc. reflexivity.
Qed.

(** The three ways the extraction stage ends. *)
Lemma link_extractor_cases E w :
  (exists opts urls,
      select_options E = inr opts
      /\ chrome_fails E = None /\ select_missing E = None
      /\ Forall (retained_from opts) urls
      /\ link_extractor E w =
         (Ok (list_set urls),
          World (files w) false
                (trace w ++ [EvBrowserStart; EvPrint "Loading demo page...";
                             EvNavigate DEMO_URL; EvSleep 3; EvBrowserQuit])))
  \/ (exists e, chrome_fails E = Some e /\ link_extractor E w = (Raise e, w))
  \/ (exists e evs,
        chrome_fails E = None
        /\ quits evs = 0
        /\ link_extractor E w =
           (Raise e, World (files w) true (trace w ++ EvBrowserStart :: evs))).
Proof.
  rewrite link_extractor_eq.
  destruct (chrome_fails E) as [e|]; [right; left; eauto|].
  destruct (navigate_fails E DEMO_URL) as [e|].
  { right. right. exists e, [EvPrint "Loading demo page..."]. repeat split. }
  destruct (select_missing E) as [e|].
  { right. right.
    exists e, [EvPrint "Loading demo page..."; EvNavigate DEMO_URL; EvSleep 3].
    repeat split. }
  destruct (select_options E) as [e|opts].
  { right. right.
    exists e, [EvPrint "Loading demo page..."; EvNavigate DEMO_URL; EvSleep 3].
    repeat split. }
  destruct (first_attr_error opts) as [e|].
  { right. right.
    exists e, [EvPrint "Loading demo page..."; EvNavigate DEMO_URL; EvSleep 3].
    repeat split. }
  left. exists opts, (kept_values opts). do 3 (split; [reflexivity|]).
  split; [apply kept_values_retained|reflexivity].
Qed.

(** ** File names and destination paths *)

Lemma startswith_slash_contains s :
  PyStr.startswith s "/" = true -> PyStr.contains "/" s = true.
Proof.
  unfold PyStr.startswith. intros H. apply String.prefix_correct in H.
  destruct s as [|c s]; [discriminate H|].
  simpl in H. injection H as -> _. reflexivity.
Qed.

Lemma filename_of_last url : last (PyStr.split "/" url) = Some (filename_of url).
Proof.
  unfold filename_of.
  destruct (PyStrFacts.split_last_is_Some "/" url) as [seg ->]. reflexivity.
Qed.

Lemma filename_of_clean url : PyStr.contains "/" (filename_of url) = false.
Proof. eapply PyStrFacts.last_segment_clean, filename_of_last. Qed.

(** The destination is the file name directly under [DOWNLOAD_DIR]. *)
Lemma dest_of_eq url : dest_of url = "scores/" +:+ filename_of url.
Proof.
  unfold dest_of, os_path_join.
  destruct (PyStr.startswith (filename_of url) "/") eqn:Hs.
  - apply startswith_slash_contains in Hs.
    rewrite filename_of_clean in Hs. discriminate.
  - reflexivity.
Qed.

Lemma dest_of_inj u1 u2 :
  dest_of u1 = dest_of u2 -> filename_of u1 = filename_of u2.
Proof. rewrite !dest_of_eq. apply String.app_inj. Qed.

Lemma filename_of_suffix url suffix :
  PyStr.contains "/" suffix = false ->
  PyStr.endswith url suffix = true ->
  PyStr.endswith (filename_of url) suffix = true.
Proof.
  intros Hclean Hends.
  apply PyStrFacts.endswith_spec in Hends as [p ->].
  pose proof (PyStrFacts.last_split_app "/" p suffix _ Hclean (filename_of_last p))
    as Hlast.
  unfold filename_of at 1. rewrite Hlast. simpl.
  apply PyStrFacts.endswith_spec. eauto.
Qed.

Lemma recognized_filename url :
  recognized url = true ->
  recognized (filename_of url) = true /\ filename_of url <> EmptyString.
Proof.
  unfold recognized. intros H.
  assert (Hrec : PyStr.endswith (filename_of url) ".xml"
                 || PyStr.endswith (filename_of url) ".mxl" = true).
  { apply orb_true_iff in H as [H|H]; apply orb_true_iff; [left|right];
      (apply filename_of_suffix; [reflexivity|exact H]). }
  split; [exact Hrec|].
  intros Hempty. rewrite Hempty in Hrec. discriminate.
Qed.

(** ** The reference set *)

Lemma list_set_NoDup l : NoDup (list_set l).
Proof. unfold list_set. apply NoDup_elements. Qed.

Lemma elem_of_list_set l u : u ∈ list_set l <-> u ∈ l.
Proof. unfold list_set. rewrite elem_of_elements, elem_of_list_to_set. reflexivity. Qed.


Lemma link_extractor_Ok E w urls :
  fst (link_extractor E w) = Ok urls ->
  exists opts,
    select_options E = inr opts
    /\ chrome_fails E = None /\ select_missing E = None
    /\ NoDup urls
    /\ (forall u, u ∈ urls -> retained_from opts u)
    /\ browser_running (snd (link_extractor E w)) = false.
Proof.
  intros H.
  destruct (link_extractor_cases E w)
    as [(opts & l & Ho & Hc & Hs & HF & Hrun)
       |[(e & _ & Hrun)|(e & evs & _ & _ & Hrun)]];
    rewrite Hrun in H; simpl in H; [|discriminate..].
  injection H as <-. exists opts. rewrite Hrun. simpl.
  split; [exact Ho|]. split; [exact Hc|]. split; [exact Hs|].
  split; [apply list_set_NoDup|]. split; [|reflexivity].
  intros u Hu. rewrite Forall_forall in HF.
  apply HF, (proj1 (elem_of_list_set _ _)), Hu.
Qed.

(** ** Files on disk *)

Lemma store_dom_mono E fs url p :
  is_Some (fs !! p) -> is_Some (store E fs url !! p).
Proof.
  unfold store. destruct (stored E url) as [data|]; [|trivial].
  intros H. destruct (decide (dest_of url = p)) as [->|Hne].
  - rewrite lookup_insert_eq. eauto.
  - rewrite lookup_insert_ne by exact Hne. exact H.
Qed.

Lemma foldl_store_dom_mono E urls fs p :
  is_Some (fs !! p) -> is_Some (foldl (store E) fs urls !! p).
Proof.
  revert fs. induction urls as [|u rest IH]; intros fs H; simpl; [exact H|].
  apply IH, store_dom_mono, H.
Qed.

Lemma succeeds_stored E url :
  succeeds E url = true -> is_Some (stored E url).
Proof.
  unfold succeeds, stored. destruct (http_get E url) as [|r]; [discriminate|].
  intros H. apply andb_true_iff in H as [H Hw]. apply andb_true_iff in H as [Hok Ho].
  apply bool_decide_eq_true in Hw, Ho. rewrite Hok, Ho, Hw. eauto.
Qed.

Lemma foldl_store_succeeds E urls fs u :
  u ∈ urls -> succeeds E u = true ->
  is_Some (foldl (store E) fs urls !! dest_of u).
Proof.
  revert fs. induction urls as [|v rest IH]; intros fs Hin Hs.
  - apply elem_of_nil in Hin. destruct Hin.
  - simpl. apply elem_of_cons in Hin as [->|Hin].
    + apply foldl_store_dom_mono. unfold store.
      destruct (succeeds_stored _ _ Hs) as [data ->].
      rewrite lookup_insert_eq. eauto.
    + apply IH; assumption.
Qed.





Lemma store_lookup_other E fs u p :
  dest_of u <> p -> store E fs u !! p = fs !! p.
Proof.
  intros Hne. unfold store. destruct (stored E u); [|reflexivity].
  apply lookup_insert_ne, Hne.
Qed.

Lemma foldl_store_lookup_other E urls fs p :
  (forall u, u ∈ urls -> dest_of u <> p) ->
  foldl (store E) fs urls !! p = fs !! p.
Proof.
  revert fs. induction urls as [|v rest IH]; intros fs Hp; [reflexivity|].
  simpl. rewrite IH.
  - apply store_lookup_other, Hp, list_elem_of_here.
  - intros u Hu. apply Hp, list_elem_of_further, Hu.
Qed.

Lemma foldl_store_lookup_NoDup E urls fs u :
  NoDup (map dest_of urls) -> u ∈ urls ->
  foldl (store E) fs urls !! dest_of u
  = match stored E u with
    | Some data => Some data
    | None => fs !! dest_of u
    end.
Proof.
  revert fs. induction urls as [|v rest IH]; intros fs Hnd Hin.
  - apply elem_of_nil in Hin. destruct Hin.
  - simpl in *. apply NoDup_cons in Hnd as [Hv Hnd].
    apply elem_of_cons in Hin as [->|Hin].
    + rewrite foldl_store_lookup_other.
      * unfold store. destruct (stored E v); [apply lookup_insert_eq|reflexivity].
      * intros u Hu Heq. apply Hv. rewrite <- Heq.
        apply list_elem_of_fmap. exists u. split; [reflexivity|exact Hu].
    + rewrite (IH _ Hnd Hin). destruct (stored E u); [reflexivity|].
      apply store_lookup_other. intros Heq. apply Hv. rewrite Heq.
      apply list_elem_of_fmap. exists u. split; [reflexivity|exact Hin].
Qed.

Lemma NoDup_dest_of urls :
  NoDup (map filename_of urls) -> NoDup (map dest_of urls).
Proof.
  induction urls as [|u rest IH]; simpl; intros Hnd; [constructor|].
  apply NoDup_cons in Hnd as [Hnotin Hnd].
  apply NoDup_cons. split; [|apply IH, Hnd].
  intros Hin. apply Hnotin.
  apply list_elem_of_fmap in Hin as (v & Hv & Hin).
  apply list_elem_of_fmap. exists v. split; [|exact Hin].
  apply dest_of_inj, Hv.
Qed.

Lemma startswith_app p s : PyStr.startswith (p +:+ s) p = true.
Proof.
  unfold PyStr.startswith. apply String.prefix_correct.
  induction p as [|c p IH].
  - destruct s; reflexivity.
  - change (String c p +:+ s) with (String c (p +:+ s)).
    simpl. rewrite IH. reflexivity.
Qed.

Lemma filter_length_Permutation {A} (f : A -> bool) (l1 l2 : list A) :
  l1 ≡ₚ l2 -> length (List.filter f l1) = length (List.filter f l2).
Proof.
  induction 1 as [|x l1 l2 _ IH|x y l|l1 l2 l3 _ IH1 _ IH2]; simpl.
  - reflexivity.
  - destruct (f x); simpl; rewrite IH; reflexivity.
  - destruct (f x), (f y); reflexivity.
  - rewrite IH1. exact IH2.
Qed.

(** ** The whole script *)

Lemma main_makedirs_fails E w e :
  makedirs_fails E DOWNLOAD_DIR = Some e -> main E w = (Raise e, w).
Proof.
  intros H. unfold main, bind, os_makedirs, bind, fail_if. rewrite H. reflexivity.
Qed.

Lemma main_after_makedirs E w :
  makedirs_fails E DOWNLOAD_DIR = None ->
  main E w =
  match link_extractor E (emit (EvMakedirs DOWNLOAD_DIR) w) with
  | (Ok urls, w1) =>
      bulk_fetcher E urls
        (emit (EvPrint ("Found " +:+ PyStr.str_of_nat (length urls)
                          +:+ " score URLs.")) w1)
  | (Raise e, w1) => (Raise e, w1)
  end.
Proof.
  intros H. unfold main, bind, os_makedirs, bind, fail_if. rewrite H. simpl.
  destruct (link_extractor E _) as [[urls|e] w1]; [|reflexivity].
  rewrite print_ascii by apply found_line_ascii. reflexivity.
Qed.


Lemma count_occ_NoDup_1 (l : list string) u :
  NoDup l -> u ∈ l -> count_occ string_dec l u = 1.
Proof.
  intros Hnd Hin. apply NoDup_ListNoDup in Hnd.
  apply (proj1 (NoDup_count_occ' string_dec l) Hnd).
  apply list_elem_of_In, Hin.
Qed.

(** ** Helpers for the properties *)


(** With pairwise distinct destinations the order of the references
    does not show in the files. *)
Lemma foldl_store_Permutation E urls1 urls2 fs :
  urls1 ≡ₚ urls2 ->
  NoDup (map dest_of urls1) ->
  foldl (store E) fs urls1 = foldl (store E) fs urls2.
Proof.
  intros Hperm Hnd1.
  assert (Hnd2 : NoDup (map dest_of urls2)).
  { apply (proj1 (NoDup_Permutation_proper _ _ (fmap_Permutation dest_of _ _ Hperm))), Hnd1. }
  apply map_eq. intros p.
  destruct (decide (p ∈ map dest_of urls1)) as [Hin|Hout].
  - apply list_elem_of_fmap in Hin as (u & -> & Hu).
    rewrite (foldl_store_lookup_NoDup E urls1 _ u Hnd1 Hu).
    rewrite (foldl_store_lookup_NoDup E urls2 _ u Hnd2); [reflexivity|].
    rewrite <- Hperm. exact Hu.
  - rewrite !foldl_store_lookup_other; [reflexivity| |].
    + intros u Hu Heq. apply Hout. rewrite <- Heq.
      apply list_elem_of_fmap. exists u. split; [reflexivity|].
      rewrite Hperm. exact Hu.
    + intros u Hu Heq. apply Hout. rewrite <- Heq.
      apply list_elem_of_fmap. exists u. split; [reflexivity|exact Hu].
Qed.

Lemma loop_abort_Forall E urls :
  Forall (fun u => item_abort E u = None) urls -> loop_abort E urls = None.
Proof.
  intros H. apply loop_abort_None. apply Forall_forall, H.
Qed.

Lemma loop_abort_Permutation E urls1 urls2 :
  urls1 ≡ₚ urls2 -> loop_abort E urls1 = None -> loop_abort E urls2 = None.
Proof.
  intros Hperm H. apply loop_abort_None. intros u Hu.
  apply (proj1 (loop_abort_None E urls1) H). rewrite Hperm. exact Hu.
Qed.


Lemma ok_false_iff r : ok r = false <-> (400 <= status_code r < 600)%Z.
Proof.
  unfold ok. rewrite negb_false_iff, andb_true_iff, Z.leb_le, Z.ltb_lt. reflexivity.
Qed.

(** The run of the Bulk Fetcher when no failure notice is refused. *)
Lemma bulk_fetcher_completes E urls w :
  loop_abort E urls = None ->
  bulk_fetcher E urls w
  = (Ok tt,
     World (foldl (store E) (files w) urls) (browser_running w)
           (trace w ++ concat (map (item_events E) urls) ++ [EvPrint "Done!"])).
Proof.
  intros H. rewrite bulk_fetcher_eq, H.
  destruct (loop_completes E urls H) as [-> ->]. reflexivity.
Qed.

Lemma bulk_fetcher_Ok E urls w :
  fst (bulk_fetcher E urls w) = Ok tt -> loop_abort E urls = None.
Proof.
  rewrite bulk_fetcher_eq. destruct (loop_abort E urls); [discriminate|reflexivity].
Qed.

(** * Properties of the specification *)

(** C1. The download loop is not fault-isolated when a failure notice
    cannot be printed.  The first reference is answered with 404, the
    second would succeed; standard output is an ASCII terminal and the
    URL of the first reference holds a character outside ASCII.  The
    [print] of the handler raises, the exception leaves the loop, the
    second reference is never requested, nothing is written and the
    script ends with status 1. *)
Theorem download_loop_aborts_on_unprintable_notice :
  fetch_fails E_ascii_stdout cafe_url = true
  /\ succeeds E_ascii_stdout "https://host/path/a.xml" = true
  /\ fst (download_files E_ascii_stdout cafe_urls (initial_world ∅))
     = Raise ascii_codec_error
  /\ gets (trace (snd (download_files E_ascii_stdout cafe_urls (initial_world ∅))))
     = [cafe_url]
  /\ printed (trace (snd (download_files E_ascii_stdout cafe_urls (initial_world ∅))))
     = []
  /\ files (snd (download_files E_ascii_stdout cafe_urls (initial_world ∅))) = ∅.
Proof. repeat split; vm_compute; reflexivity. Qed.




(** C3, as stated, fails: when the page has no select control the
    extraction stage raises after the browser was started, [driver.quit()]
    is never reached, and the browser process is still running when the
    script has ended. *)
Lemma browser_left_running_counterexample :
  fst (link_extractor E_no_select (initial_world ∅))
  = Raise (Exn NoSuchElementException "no such element: select")
  /\ browser_running (snd (link_extractor E_no_select (initial_world ∅))) = true
  /\ quits (trace (snd (link_extractor E_no_select (initial_world ∅)))) = 0
  /\ exit_status (fst (main E_no_select (initial_world ∅))) = 1%Z
  /\ browser_running (snd (main E_no_select (initial_world ∅))) = true.
Proof. repeat split. Qed.

(** C3, amended.  The browser is shut down exactly on the path where the
    extraction stage completes: there [driver.quit()] runs once and the
    process is gone before the Reference Set is handed on.  On a path
    where a step of the extraction raises, [driver.quit()] is not
    reached: the browser keeps running if it had been started, and was
    never started if the launch itself failed. *)
Theorem browser_quit_on_normal_path_only (E : env) (w : world) :
  match link_extractor E w with
  | (Ok _, w') =>
      browser_running w' = false
      /\ quits (trace w') = S (quits (trace w))
      /\ last (trace w') = Some EvBrowserQuit
  | (Raise _, w') =>
      quits (trace w') = quits (trace w)
      /\ browser_running w'
         = match chrome_fails E with
           | Some _ => browser_running w
           | None => true
           end
  end.
Proof.
  assert (Hq : forall a b, quits (a ++ b) = quits a + quits b).
  { intros a b. unfold quits. rewrite List.filter_app, length_app. reflexivity. }
  destruct (link_extractor_cases E w)
    as [(opts & l & _ & _ & _ & _ & ->)
       |[(e & Hc & ->)|(e & evs & Hc & Hevs & ->)]]; simpl.
  - split; [reflexivity|]. split.
    + rewrite Hq. unfold quits at 2. simpl. lia.
    + change [EvBrowserStart; EvPrint "Loading demo page..."; EvNavigate DEMO_URL;
              EvSleep 3; EvBrowserQuit]
        with ([EvBrowserStart; EvPrint "Loading demo page..."; EvNavigate DEMO_URL;
               EvSleep 3] ++ [EvBrowserQuit])%list.
      rewrite app_assoc. apply last_snoc.
  - rewrite Hc. split; reflexivity.
  - rewrite Hc. split; [|reflexivity].
    change (EvBrowserStart :: evs) with ([EvBrowserStart] ++ evs)%list.
    rewrite !Hq, Hevs. change (quits [EvBrowserStart]) with 0. lia.
Qed.

(** C4. Every URL of the Reference Set is the value attribute of one of
    the page's options, is non-empty, and ends, character for character,
    with ".xml" or with ".mxl"; a value with any other suffix is not in
    the set. *)
Theorem reference_set_suffixes (E : env) (w : world) (urls : list string) (u : string) :
  fst (link_extractor E w) = Ok urls ->
  u ∈ urls ->
  u <> EmptyString
  /\ (PyStr.endswith u ".xml" = true \/ PyStr.endswith u ".mxl" = true)
  /\ exists opts o,
       select_options E = inr opts /\ o ∈ opts /\ attr_value o = inr (Some u).
Proof.
  intros Hrun Hu.
  destruct (link_extractor_Ok E w urls Hrun) as (opts & Ho & _ & _ & _ & Hret & _).
  destruct (Hret u Hu) as (Hne & Hrec & o & Hin & Hval).
  split; [exact Hne|]. split.
  - unfold recognized in Hrec. apply orb_true_iff in Hrec. exact Hrec.
  - exists opts, o. repeat split; assumption.
Qed.

Lemma reference_set_suffixes_witness :
  exists urls,
    fst (link_extractor E_sample (initial_world ∅)) = Ok urls
    /\ ("https://host/path/song.mxl" ∈ urls)
    /\ ("https://host/path/c.pdf" ∉ urls)
    /\ ("https://host/path/A.XML" ∉ urls)
    /\ "https://host/path/song.mxl" <> EmptyString
    /\ (PyStr.endswith "https://host/path/song.mxl" ".xml" = true
        \/ PyStr.endswith "https://host/path/song.mxl" ".mxl" = true).
Proof.
  eexists. split; [vm_compute; reflexivity|].
  match goal with
  | |- ?u ∈ ?l /\ _ =>
      assert (Hin : u ∈ l) by (apply (bool_decide_unpack _); vm_compute; exact I)
  end.
  split; [exact Hin|].
  split; [apply (bool_decide_unpack _); vm_compute; exact I|].
  split; [apply (bool_decide_unpack _); vm_compute; exact I|].
  destruct (reference_set_suffixes E_sample (initial_world ∅) _ _
              ltac:(vm_compute; reflexivity) Hin) as (Hne & Hsuf & _).
  split; [exact Hne|exact Hsuf].
Defined.

(** C5. The Reference Set handed to the download stage holds no URL
    twice, however often a value occurs among the options of the page. *)
Theorem reference_set_no_duplicates (E : env) (w : world) (urls : list string) :
  fst (link_extractor E w) = Ok urls ->
  NoDup urls
  /\ forall u, count_occ string_dec urls u <= 1.
Proof.
  intros Hrun.
  destruct (link_extractor_Ok E w urls Hrun) as (_ & _ & _ & _ & Hnd & _).
  split; [exact Hnd|].
  apply NoDup_ListNoDup in Hnd.
  apply (proj1 (NoDup_count_occ string_dec urls) Hnd).
Qed.

Lemma reference_set_no_duplicates_witness :
  exists urls,
    fst (link_extractor E_sample (initial_world ∅)) = Ok urls
    /\ length urls = 2
    /\ NoDup urls
    /\ count_occ string_dec urls "https://host/path/a.xml" <= 1.
Proof.
  eexists. split; [vm_compute; reflexivity|]. split; [reflexivity|].
  destruct (reference_set_no_duplicates E_sample (initial_world ∅) _
              ltac:(vm_compute; reflexivity)) as (Hnd & Hcount).
  split; [exact Hnd|apply Hcount].
Defined.

(** C6, as stated, fails for a status that is no success and yet passes
    [raise_for_status]: a response with status 304 and a body is written
    over the existing file, and no failure line is printed. *)
Lemma write_on_non_success_status_counterexample :
  http_get E_not_modified "https://host/path/song.mxl"
  = inr (Response 304 "Not Modified" "https://host/path/song.mxl"
                  [Byte.x6f; Byte.x6c; Byte.x64])
  /\ success_status (Response 304 "Not Modified" "https://host/path/song.mxl"
                              [Byte.x6f; Byte.x6c; Byte.x64]) = false
  /\ download_one E_not_modified "https://host/path/song.mxl"
       (initial_world {[ "scores/song.mxl" := [Byte.x01] ]})
     = (Ok tt,
        World {[ "scores/song.mxl" := [Byte.x6f; Byte.x6c; Byte.x64] ]} false
              [EvGet "https://host/path/song.mxl"; EvOpen "scores/song.mxl";
               EvWrite "scores/song.mxl" [Byte.x6f; Byte.x6c; Byte.x64]])
  /\ files (snd (download_one E_not_modified "https://host/path/song.mxl"
                   (initial_world {[ "scores/song.mxl" := [Byte.x01] ]})))
     <> {[ "scores/song.mxl" := [Byte.x01] ]}.
Proof.
  split; [reflexivity|]. split; [reflexivity|].
  assert (Hrun : download_one E_not_modified "https://host/path/song.mxl"
                   (initial_world {[ "scores/song.mxl" := [Byte.x01] ]})
                 = (Ok tt,
                    World {[ "scores/song.mxl" := [Byte.x6f; Byte.x6c; Byte.x64] ]} false
                          [EvGet "https://host/path/song.mxl"; EvOpen "scores/song.mxl";
                           EvWrite "scores/song.mxl" [Byte.x6f; Byte.x6c; Byte.x64]]))
    by (vm_compute; reflexivity).
  split; [exact Hrun|]. rewrite Hrun. simpl. intros Heq.
  assert (Hl : ({[ "scores/song.mxl" := [Byte.x6f; Byte.x6c; Byte.x64] ]}
                  : gmap string bytes) !! "scores/song.mxl"
               = ({[ "scores/song.mxl" := [Byte.x01] ]} : gmap string bytes)
                   !! "scores/song.mxl") by (rewrite Heq; reflexivity).
  rewrite !lookup_singleton_eq in Hl. discriminate Hl.
Qed.

(** C6, amended.  When the GET for a reference returns a response whose
    status [raise_for_status] rejects, that is a status from 400 to 599
    (e.g. 404), the iteration for that reference leaves every file as it
    was and opens nothing; when standard output takes the failure notice
    it prints one failure line for the reference and returns normally,
    so the loop goes on.  The file is opened only after
    [raise_for_status] has returned: an iteration that changed the files
    had a response that passed the check.  A response with any other
    status passes the check, and its body is written when the disk
    allows. *)
Theorem no_write_on_http_error (E : env) (url : string) (r : response) (w : world) :
  http_get E url = inr r ->
  (ok r = false <-> (400 <= status_code r < 600)%Z)
  /\ (ok r = false ->
      files (snd (download_one E url w)) = files w
      /\ (exists evs,
            trace (snd (download_one E url w)) = (trace w ++ EvGet url :: evs)%list
            /\ (evs = [] \/ evs = [EvPrint (failure_line url (http_error_msg r))]))
      /\ (stdout_error E (failure_line url (http_error_msg r)) = None ->
          download_one E url w
          = (Ok tt, World (files w) (browser_running w)
                          (trace w ++ [EvGet url;
                                       EvPrint (failure_line url (http_error_msg r))]))))
  /\ (files (snd (download_one E url w)) <> files w -> ok r = true)
  /\ (ok r = true ->
      open_fails E (dest_of url) = None ->
      write_fails E (dest_of url) (content r) = None ->
      files (snd (download_one E url w)) !! dest_of url = Some (content r)).
Proof.
  intros Hget. split; [apply ok_false_iff|].
  rewrite download_one_eq.
  unfold item_abort, item_events, item_actions, notice, failure_exn, store, stored.
  rewrite Hget. split; [|split].
  - intros Hok. rewrite Hok. simpl.
    destruct (stdout_error E (failure_line url (http_error_msg r))) as [e|]; simpl.
    + split; [reflexivity|]. split; [|discriminate].
      exists []. split; [reflexivity|left; reflexivity].
    + split; [reflexivity|]. split; [|reflexivity].
      exists [EvPrint (failure_line url (http_error_msg r))].
      split; [reflexivity|right; reflexivity].
  - destruct (ok r); [reflexivity|]. simpl.
    destruct (stdout_error E (failure_line url (http_error_msg r)));
      intros Hchanged; destruct Hchanged; reflexivity.
  - intros Hok Ho Hw. rewrite Hok, Ho, Hw. simpl. apply lookup_insert_eq.
Qed.

Lemma no_write_on_http_error_witness :
  http_get E_sample "https://host/path/song.mxl"
  = inr (Response 404 "Not Found" "https://host/path/song.mxl" [])
  /\ ok (Response 404 "Not Found" "https://host/path/song.mxl" []) = false
  /\ stdout_error E_sample
       (failure_line "https://host/path/song.mxl"
          (http_error_msg (Response 404 "Not Found" "https://host/path/song.mxl" [])))
     = None
  /\ download_one E_sample "https://host/path/song.mxl" (initial_world ∅)
     = (Ok tt,
        World ∅ false
              [EvGet "https://host/path/song.mxl";
               EvPrint "FAILED to download https://host/path/song.mxl: 404 Client Error: Not Found for url: https://host/path/song.mxl"]).
Proof.
  split; [reflexivity|]. split; [reflexivity|]. split; [reflexivity|].
  exact (proj2 (proj2 (proj1 (proj2
           (no_write_on_http_error E_sample "https://host/path/song.mxl"
              (Response 404 "Not Found" "https://host/path/song.mxl" [])
              (initial_world ∅) eq_refl)) eq_refl)) eq_refl).
Defined.

(** C7. Download failures are not always absorbed.  With the output
    directory made, the browser working and the extraction stage
    returning two references, the only thing that goes wrong is one
    download answered with 404; its failure notice cannot be printed on
    the ASCII terminal, the exception of the [print] in the handler is
    uncaught, and the script ends with status 1 without reaching the
    completion marker. *)
Theorem exit_status_one_on_unprintable_notice :
  makedirs_fails E_ascii_stdout DOWNLOAD_DIR = None
  /\ (exists urls,
        fst (link_extractor E_ascii_stdout
               (emit (EvMakedirs DOWNLOAD_DIR) (initial_world ∅))) = Ok urls
        /\ length urls = 2)
  /\ fst (main E_ascii_stdout (initial_world ∅)) = Raise ascii_codec_error
  /\ exit_status (fst (main E_ascii_stdout (initial_world ∅))) = 1%Z
  /\ List.filter (String.eqb "Done!")
       (printed (trace (snd (main E_ascii_stdout (initial_world ∅))))) = [].
Proof.
  split; [reflexivity|].
  split; [eexists; split; [vm_compute; reflexivity|reflexivity]|].
  repeat split; vm_compute; reflexivity.
Qed.





(** C10. Two references with the same final path segment have the same
    destination.  When both downloads succeed in one run, both bodies
    are written to that one path and the file ends up holding the later
    body: two successful fetches add at most one file. *)
Theorem same_filename_overwrites (E : env) (u1 u2 : string) (w : world) :
  u1 <> u2 ->
  filename_of u1 = filename_of u2 ->
  succeeds E u1 = true ->
  succeeds E u2 = true ->
  let w' := snd (download_files E [u1; u2] w) in
  dest_of u1 = dest_of u2
  /\ length (List.filter (succeeds E) [u1; u2]) = 2
  /\ written (trace w') = (written (trace w) ++ [dest_of u1; dest_of u1])%list
  /\ (exists r2, http_get E u2 = inr r2
                 /\ files w' = <[dest_of u1 := content r2]> (files w))
  /\ size (files w') <= S (size (files w)).
Proof.
  intros _ Hname Hs1 Hs2 w'. subst w'.
  assert (Hdest : dest_of u1 = dest_of u2) by (unfold dest_of; rewrite Hname; reflexivity).
  destruct (download_one_success E u1 w Hs1) as (r1 & Hget1 & _ & Hrun1).
  match type of Hrun1 with
  | _ = (_, ?w1) =>
      destruct (download_one_success E u2 w1 Hs2) as (r2 & Hget2 & _ & Hrun2)
  end.
  assert (Hrun : download_files E [u1; u2] w
                 = (Ok tt,
                    World (<[dest_of u1 := content r2]> (files w)) (browser_running w)
                          (trace w ++ [EvGet u1; EvOpen (dest_of u1);
                                       EvWrite (dest_of u1) (content r1);
                                       EvGet u2; EvOpen (dest_of u1);
                                       EvWrite (dest_of u1) (content r2)]))).
  { simpl. unfold bind. rewrite Hrun1, Hrun2. unfold ret. simpl.
    rewrite <- Hdest, insert_insert_eq, <- app_assoc. reflexivity. }
  rewrite Hrun. simpl.
  split; [exact Hdest|]. split; [rewrite Hs1, Hs2; reflexivity|].
  split; [rewrite written_app; reflexivity|].
  split; [exists r2; split; [exact Hget2|reflexivity]|].
  destruct (files w !! dest_of u1) as [old|] eqn:Hold.
  - rewrite map_size_insert_Some by eauto. lia.
  - rewrite map_size_insert_None by exact Hold. lia.
Qed.

Lemma same_filename_overwrites_witness :
  "https://a.example/x.xml" <> "https://b.example/x.xml"
  /\ Forall (fun u => recognized u = true) collide_urls
  /\ dest_of "https://a.example/x.xml" = dest_of "https://b.example/x.xml"
  /\ length (List.filter (succeeds E_collide) collide_urls) = 2
  /\ files (snd (download_files E_collide collide_urls (initial_world ∅)))
     = {[ "scores/x.xml" := [Byte.x02] ]}
  /\ size (files (snd (download_files E_collide collide_urls (initial_world ∅)))) = 1.
Proof.
  assert (Hne : "https://a.example/x.xml" <> "https://b.example/x.xml") by discriminate.
  destruct (same_filename_overwrites E_collide "https://a.example/x.xml"
              "https://b.example/x.xml" (initial_world ∅) Hne eq_refl eq_refl eq_refl)
    as (Hdest & Hcount & _ & (r2 & Hget & Hfiles) & _).
  split; [exact Hne|]. split; [repeat constructor|].
  split; [exact Hdest|]. split; [exact Hcount|].
  split; [|vm_compute; reflexivity].
  change (download_files E_collide collide_urls (initial_world ∅))
    with (download_files E_collide ["https://a.example/x.xml"; "https://b.example/x.xml"]
            (initial_world ∅)).
  rewrite Hfiles. injection Hget as <-. reflexivity.
Defined.

(** * Further properties of the script *)

(** ** The extraction stage, exactly *)

(** X1. When the extraction stage returns, the Reference Set holds
    exactly the option values that pass the test of line 34: a URL is in
    the set if and only if it is the value of some option of the page, is
    not empty and ends with ".xml" or ".mxl".  No qualifying value is
    lost, wherever and however often it occurs on the page. *)
Theorem reference_set_exact (E : env) (w : world) (urls : list string) :
  fst (link_extractor E w) = Ok urls ->
  exists opts,
    select_options E = inr opts
    /\ forall u, u ∈ urls <-> retained_from opts u.
Proof.
  rewrite link_extractor_eq.
  destruct (chrome_fails E); [discriminate|].
  destruct (navigate_fails E DEMO_URL); [discriminate|].
  destruct (select_missing E); [discriminate|].
  destruct (select_options E) as [e|opts]; [discriminate|].
  destruct (first_attr_error opts); [discriminate|].
  simpl. intros [= <-]. exists opts. split; [reflexivity|].
  intros u. rewrite elem_of_list_set. apply elem_of_kept_values.
Qed.

Lemma reference_set_exact_witness :
  exists urls,
    fst (link_extractor E_sample (initial_world ∅)) = Ok urls
    /\ ("https://host/path/a.xml" ∈ urls)
    /\ ("https://host/path/c.pdf" ∉ urls).
Proof.
  eexists. split; [vm_compute; reflexivity|].
  destruct (reference_set_exact E_sample (initial_world ∅) _
              ltac:(vm_compute; reflexivity)) as (opts & Hopts & Hiff).
  injection Hopts as <-. split.
  - apply Hiff. split; [discriminate|]. split; [reflexivity|].
    exists (option_value "https://host/path/a.xml").
    split; [|reflexivity]. apply list_elem_of_here.
  - intros Hin. apply Hiff in Hin as (_ & Hrec & _). discriminate Hrec.
Defined.



(** ** The whole run *)

(** X3. A run that ends normally has this shape: the output directory
    is made, the browser is started, the page is loaded and the browser
    is quit, all before the first GET; then the number of references is
    announced, and that number is the number of GET requests that follow;
    the requests go to pairwise distinct URLs; the download stage never
    touches the browser; the completion marker is the last event. *)
Theorem completed_run_shape (E : env) (w : world) :
  fst (main E w) = Ok tt ->
  exists urls evs,
    NoDup urls
    /\ trace (snd (main E w))
       = (trace w ++ [EvMakedirs DOWNLOAD_DIR] ++ LOADED
            ++ [EvBrowserQuit;
                EvPrint ("Found " +:+ PyStr.str_of_nat (length urls) +:+ " score URLs.")]
            ++ evs ++ [EvPrint "Done!"])%list
    /\ gets evs = urls
    /\ length (gets evs) = length urls
    /\ browser_events evs = []
    /\ browser_running (snd (main E w)) = false
    /\ files (snd (main E w)) = foldl (store E) (files w) urls.
Proof.
  destruct (makedirs_fails E DOWNLOAD_DIR) as [e|] eqn:Hm.
  { rewrite (main_makedirs_fails _ _ _ Hm). discriminate. }
  rewrite (main_after_makedirs E w Hm), link_extractor_eq.
  destruct (chrome_fails E); [discriminate|].
  destruct (navigate_fails E DEMO_URL); [discriminate|].
  destruct (select_missing E); [discriminate|].
  destruct (select_options E) as [e|opts]; [discriminate|].
  destruct (first_attr_error opts); [discriminate|].
  rewrite bulk_fetcher_eq.
  destruct (loop_abort E (list_set (kept_values opts))) eqn:Hab; [discriminate|].
  destruct (loop_completes _ _ Hab) as [Hatt Hev].
  simpl. intros _.
  exists (list_set (kept_values opts)), (loop_events E (list_set (kept_values opts))).
  split; [apply list_set_NoDup|]. split.
  { rewrite <- !app_assoc. reflexivity. }
  rewrite loop_events_attempted, loop_events_no_browser, Hatt. repeat split.
Qed.

Lemma completed_run_shape_witness :
  exists urls evs,
    NoDup urls
    /\ trace (snd (main E_sample (initial_world ∅)))
       = ([EvMakedirs DOWNLOAD_DIR] ++ LOADED
            ++ [EvBrowserQuit;
                EvPrint ("Found " +:+ PyStr.str_of_nat (length urls) +:+ " score URLs.")]
            ++ evs ++ [EvPrint "Done!"])%list
    /\ gets evs = urls
    /\ length urls = 2.
Proof.
  destruct (completed_run_shape E_sample (initial_world ∅) eq_refl)
    as (urls & evs & Hnd & Htr & Hgets & Hlen & _).
  exists urls, evs. split; [exact Hnd|]. split; [exact Htr|]. split; [exact Hgets|].
  rewrite <- Hlen.
  assert (Hall : gets (trace (snd (main E_sample (initial_world ∅))))
                 = ["https://host/path/song.mxl"; "https://host/path/a.xml"])
    by (vm_compute; reflexivity).
  rewrite Htr in Hall. simpl in Hall. unfold LOADED in Hall.
  rewrite !gets_app in Hall. simpl in Hall. rewrite app_nil_r in Hall.
  rewrite Hall. reflexivity.
Defined.




(** X5. Every fault of the extraction stage is fatal, not only a failed
    launch or a missing select control: when the page cannot be loaded,
    when the options of the select cannot be listed, or when the value of
    any option cannot be read (even of an option the filter would drop)
    the script ends with an uncaught exception, exit status 1, and does
    not download the references it had already collected. *)
Theorem extraction_faults_are_fatal (E : env) (w : world) :
  navigate_fails E DEMO_URL <> None
  \/ (exists e, select_options E = inl e)
  \/ (exists opts o e, select_options E = inr opts /\ o ∈ opts /\ attr_value o = inl e) ->
  exit_status (fst (main E w)) = 1%Z
  /\ gets (trace (snd (main E w))) = gets (trace w).
Proof.
  intros Hfault.
  destruct (makedirs_fails E DOWNLOAD_DIR) as [e'|] eqn:Hm.
  { rewrite (main_makedirs_fails _ _ _ Hm). split; reflexivity. }
  rewrite (main_after_makedirs E w Hm), link_extractor_eq.
  assert (Hstop : forall e' evs,
             gets evs = [] ->
             exit_status (fst (@Raise unit e',
                               World (files w) true
                                     (trace (emit (EvMakedirs DOWNLOAD_DIR) w) ++ evs)))
             = 1%Z
             /\ gets (trace (snd (@Raise unit e',
                                  World (files w) true
                                        (trace (emit (EvMakedirs DOWNLOAD_DIR) w) ++ evs))))
                = gets (trace w)).
  { intros e' evs Hevs. split; [reflexivity|]. simpl.
    rewrite !gets_app, Hevs. simpl. rewrite !app_nil_r. reflexivity. }
  destruct (chrome_fails E).
  { split; [reflexivity|]. simpl. rewrite gets_app. simpl. apply app_nil_r. }
  destruct (navigate_fails E DEMO_URL) eqn:Hn; [apply Hstop; reflexivity|].
  destruct (select_missing E); [apply Hstop; reflexivity|].
  destruct (select_options E) as [e'|opts] eqn:Ho; [apply Hstop; reflexivity|].
  destruct (first_attr_error opts) eqn:Herr; [apply Hstop; reflexivity|].
  exfalso. destruct Hfault as [H|[(e' & H)|(opts' & o & e' & Hopts & Hin & Hval)]].
  - apply H. reflexivity.
  - discriminate H.
  - injection Hopts as <-.
    apply (first_attr_error_elem _ _ _ Hin Hval). exact Herr.
Qed.

Lemma extraction_faults_are_fatal_witness :
  exit_status (fst (main E_stale_option (initial_world ∅))) = 1%Z
  /\ gets (trace (snd (main E_stale_option (initial_world ∅)))) = [].
Proof.
  apply (extraction_faults_are_fatal E_stale_option (initial_world ∅)).
  right. right. eexists _, _, _. split; [reflexivity|]. split.
  - do 2 apply list_elem_of_further. apply list_elem_of_here.
  - reflexivity.
Defined.

(** ** One iteration, failure by failure *)

(** X6. When the GET itself raises (no connection, DNS, timeout) or the
    destination cannot be opened for writing, the iteration leaves every
    file as it was and goes on to print one failure line that carries
    the URL and the text of that exception: when standard output takes
    the line the iteration returns normally, and when it cannot encode
    the line the error of the [print] leaves the iteration, still with
    no file changed. *)
Theorem failed_fetch_or_open_leaves_disk (E : env) (url : string) (e : exn) (w : world) :
  http_get E url = inl e
  \/ (exists r, http_get E url = inr r /\ ok r = true
                /\ open_fails E (dest_of url) = Some e) ->
  download_one E url w
  = match stdout_error E (failure_line url (exn_msg e)) with
    | None =>
        (Ok tt, World (files w) (browser_running w)
                      (trace w ++ [EvGet url; EvPrint (failure_line url (exn_msg e))]))
    | Some e' =>
        (Raise e', World (files w) (browser_running w) (trace w ++ [EvGet url]))
    end.
Proof.
  intros H. rewrite download_one_eq.
  unfold store, stored, item_abort, item_events, item_actions, notice, failure_exn.
  destruct H as [Hget|(r & Hget & Hok & Ho)].
  - rewrite Hget.
    destruct (stdout_error E (failure_line url (exn_msg e))); reflexivity.
  - rewrite Hget, Hok, Ho.
    destruct (stdout_error E (failure_line url (exn_msg e))); reflexivity.
Qed.

Lemma failed_fetch_or_open_leaves_disk_witness :
  download_one E_offline "https://host/path/a.xml" (initial_world ∅)
  = (Ok tt, World ∅ false
                  [EvGet "https://host/path/a.xml";
                   EvPrint "FAILED to download https://host/path/a.xml: Connection refused"])
  /\ download_one E_read_only "https://host/path/a.xml" (initial_world ∅)
     = (Ok tt, World ∅ false
                     [EvGet "https://host/path/a.xml";
                      EvPrint "FAILED to download https://host/path/a.xml: [Errno 13] Permission denied"]).
Proof.
  split.
  - rewrite (failed_fetch_or_open_leaves_disk E_offline "https://host/path/a.xml"
               (Exn RequestException "Connection refused") (initial_world ∅));
      [reflexivity|].
    left. reflexivity.
  - rewrite (failed_fetch_or_open_leaves_disk E_read_only "https://host/path/a.xml"
               (Exn OSError "[Errno 13] Permission denied") (initial_world ∅));
      [reflexivity|].
    right. eexists. split; [reflexivity|]. split; reflexivity.
Defined.

(** X7. There is no protection against partial writes: when the file
    has been opened and writing the body then fails, the destination is
    left holding only the bytes written so far, a prefix of the body, and
    whatever the file held before is gone.  The failure notice is printed
    next, and the iteration returns normally when standard output takes
    it. *)
Theorem failed_write_leaves_prefix
  (E : env) (url : string) (r : response) (n : nat) (e : exn) (w : world) :
  http_get E url = inr r ->
  ok r = true ->
  open_fails E (dest_of url) = None ->
  write_fails E (dest_of url) (content r) = Some (n, e) ->
  download_one E url w
  = match stdout_error E (failure_line url (exn_msg e)) with
    | None =>
        (Ok tt,
         World (<[dest_of url := take n (content r)]> (files w)) (browser_running w)
               (trace w ++ [EvGet url; EvOpen (dest_of url);
                            EvPrint (failure_line url (exn_msg e))]))
    | Some e' =>
        (Raise e',
         World (<[dest_of url := take n (content r)]> (files w)) (browser_running w)
               (trace w ++ [EvGet url; EvOpen (dest_of url)]))
    end
  /\ files (snd (download_one E url w)) !! dest_of url = Some (take n (content r))
  /\ length (take n (content r)) <= length (content r).
Proof.
  intros Hget Hok Ho Hw. rewrite download_one_eq.
  unfold store, stored, item_abort, item_events, item_actions, notice, failure_exn.
  rewrite Hget, Hok, Ho, Hw.
  destruct (stdout_error E (failure_line url (exn_msg e))); simpl;
    (split; [reflexivity|]; split; [apply lookup_insert_eq|]);
    rewrite length_take; lia.
Qed.

Lemma failed_write_leaves_prefix_witness :
  files (snd (download_one E_disk_full "https://host/path/a.xml"
                (initial_world {[ "scores/a.xml" := [Byte.x01; Byte.x02; Byte.x03] ]})))
  !! "scores/a.xml" = Some [Byte.x3c].
Proof.
  exact (proj1 (proj2
           (failed_write_leaves_prefix E_disk_full "https://host/path/a.xml"
              (Response 200 "OK" "https://host/path/a.xml" [Byte.x3c; Byte.x3f]) 1
              (Exn OSError "[Errno 28] No space left on device")
              (initial_world {[ "scores/a.xml" := [Byte.x01; Byte.x02; Byte.x03] ]})
              eq_refl eq_refl eq_refl eq_refl))).
Defined.

(** ** What the download stage leaves on disk *)

(** X8. When the loop runs to its end and the file names of the
    references are pairwise distinct, every reference that succeeds ends
    up on disk with exactly the body of its response, whatever the file
    held before and whichever other references failed. *)
Theorem downloaded_file_holds_body
  (E : env) (urls : list string) (u : string) (r : response) (w : world) :
  fst (download_files E urls w) = Ok tt ->
  NoDup (map filename_of urls) ->
  u ∈ urls ->
  http_get E u = inr r ->
  succeeds E u = true ->
  files (snd (download_files E urls w)) !! dest_of u = Some (content r).
Proof.
  rewrite download_files_eq. simpl.
  destruct (loop_abort E urls) eqn:Hab; [discriminate|].
  intros _ Hnd Hin Hget Hs.
  destruct (loop_completes _ _ Hab) as [-> _].
  rewrite (foldl_store_lookup_NoDup E urls (files w) u (NoDup_dest_of _ Hnd) Hin).
  destruct (download_one_success E u w Hs) as (r' & Hget' & -> & _).
  congruence.
Qed.

Lemma downloaded_file_holds_body_witness :
  files (snd (download_files E_sample sample_urls
                (initial_world {[ "scores/a.xml" := [Byte.x00] ]})))
  !! "scores/a.xml" = Some [Byte.x3c; Byte.x3f].
Proof.
  apply (downloaded_file_holds_body E_sample sample_urls "https://host/path/a.xml"
           (Response 200 "OK" "https://host/path/a.xml" [Byte.x3c; Byte.x3f])).
  - reflexivity.
  - apply (bool_decide_unpack _). vm_compute. exact I.
  - apply (bool_decide_unpack _). vm_compute. exact I.
  - reflexivity.
  - reflexivity.
Defined.

(** X9. The download stage is confined to its destinations: a path that
    is not the destination of one of the references keeps its content,
    in particular every path that does not start with "scores/"; and the
    stage never deletes a file. *)
Theorem download_stage_confined (E : env) (urls : list string) (w : world) (p : string) :
  ((forall u, u ∈ urls -> dest_of u <> p) ->
   files (snd (bulk_fetcher E urls w)) !! p = files w !! p)
  /\ (PyStr.startswith p "scores/" = false ->
      files (snd (bulk_fetcher E urls w)) !! p = files w !! p)
  /\ (is_Some (files w !! p) -> is_Some (files (snd (bulk_fetcher E urls w)) !! p)).
Proof.
  assert (Hfiles : files (snd (bulk_fetcher E urls w))
                   = foldl (store E) (files w) (attempted E urls)).
  { rewrite bulk_fetcher_eq. destruct (loop_abort E urls); reflexivity. }
  rewrite Hfiles. split; [|split].
  - intros Hp. apply foldl_store_lookup_other.
    intros u Hu. apply Hp, (attempted_elem E urls u Hu).
  - intros Hp. apply foldl_store_lookup_other. intros u _ Heq.
    rewrite <- Heq, dest_of_eq, startswith_app in Hp. discriminate.
  - apply foldl_store_dom_mono.
Qed.

Lemma download_stage_confined_witness :
  files (snd (bulk_fetcher E_sample sample_urls
                (initial_world {[ "notes.txt" := [Byte.x41] ]})))
  !! "notes.txt" = Some [Byte.x41].
Proof.
  rewrite (proj1 (proj2 (download_stage_confined E_sample sample_urls
                           (initial_world {[ "notes.txt" := [Byte.x41] ]}) "notes.txt"))
             eq_refl).
  reflexivity.
Defined.

(** X10. Python does not fix the order in which a set is enumerated.
    When the file names of the references are pairwise distinct the
    order does not matter: if the Bulk Fetcher returns over the
    references in one order, it returns over them in any other order,
    and the two runs leave the same files with the same contents, send
    the same requests and print the same number of failure lines. *)
Theorem outcome_independent_of_order (E : env) (urls1 urls2 : list string) (w : world) :
  urls1 ≡ₚ urls2 ->
  NoDup (map filename_of urls1) ->
  fst (bulk_fetcher E urls1 w) = Ok tt ->
  fst (bulk_fetcher E urls2 w) = Ok tt
  /\ files (snd (bulk_fetcher E urls1 w)) = files (snd (bulk_fetcher E urls2 w))
  /\ gets (trace (snd (bulk_fetcher E urls1 w)))
     ≡ₚ gets (trace (snd (bulk_fetcher E urls2 w)))
  /\ length (failure_lines (trace (snd (bulk_fetcher E urls1 w))))
     = length (failure_lines (trace (snd (bulk_fetcher E urls2 w)))).
Proof.
  intros Hperm Hnd Hok.
  pose proof (bulk_fetcher_Ok _ _ _ Hok) as Hab1.
  pose proof (loop_abort_Permutation _ _ _ Hperm Hab1) as Hab2.
  rewrite (bulk_fetcher_completes E urls1 w Hab1).
  rewrite (bulk_fetcher_completes E urls2 w Hab2). simpl.
  split; [reflexivity|]. split; [|split].
  - apply foldl_store_Permutation; [exact Hperm|apply NoDup_dest_of, Hnd].
  - rewrite !gets_app. simpl. rewrite !app_nil_r.
    destruct (loop_completes _ _ Hab1) as [Ha1 He1].
    destruct (loop_completes _ _ Hab2) as [Ha2 He2].
    rewrite <- He1, <- He2, !loop_events_attempted, Ha1, Ha2.
    apply Permutation_app_head, Hperm.
  - rewrite !failure_lines_app, !length_app. unfold failure_lines at 2 3 5 6.
    rewrite !loop_printed, !notices_are_failure_lines, !notices_length.
    rewrite (filter_length_Permutation (fails E) urls1 urls2 Hperm). reflexivity.
Qed.

Lemma outcome_independent_of_order_witness :
  files (snd (bulk_fetcher E_sample
                ["https://host/path/a.xml"; "https://host/path/song.mxl"]
                (initial_world ∅)))
  = files (snd (bulk_fetcher E_sample sample_urls (initial_world ∅))).
Proof.
  apply (outcome_independent_of_order E_sample
           ["https://host/path/a.xml"; "https://host/path/song.mxl"] sample_urls
           (initial_world ∅)).
  - apply Permutation_swap.
  - apply (bool_decide_unpack _). vm_compute. exact I.
  - reflexivity.
Defined.

(** ** The file name as a part of the URL *)

Lemma str_app_assoc (a b c : string) : (a +:+ b) +:+ c = a +:+ (b +:+ c).
Proof.
  induction a as [|x a IH]; [reflexivity|].
  rewrite !PyStrFacts.app_cons, IH. reflexivity.
Qed.

Lemma str_join_cons sep x y l :
  str_join sep (x :: y :: l) = x +:+ sep +:+ str_join sep (y :: l).
Proof. reflexivity. Qed.

Lemma str_join_split sep s :
  str_join (String sep EmptyString) (PyStr.split sep s) = s.
Proof.
  induction s as [|c s IH]; [reflexivity|].
  simpl PyStr.split. pose proof (PyStrFacts.split_not_nil sep s) as Hne.
  destruct (PyStr.split sep s) as [|x xs]; [congruence|].
  destruct (Ascii.eqb c sep) eqn:Hc.
  - apply Ascii.eqb_eq in Hc as ->. rewrite str_join_cons, IH. reflexivity.
  - destruct xs as [|y ys].
    + simpl in *. rewrite IH. reflexivity.
    + rewrite str_join_cons in *. rewrite PyStrFacts.app_cons, IH. reflexivity.
Qed.

Lemma str_join_snoc sep init f :
  exists p,
    str_join sep (init ++ [f]) = p +:+ f
    /\ (p = EmptyString \/ PyStr.endswith p sep = true).
Proof.
  induction init as [|x init (p & IH & Hp)].
  - exists EmptyString. split; [reflexivity|left; reflexivity].
  - exists (x +:+ sep +:+ p). split.
    + destruct init as [|y init]; simpl app in *.
      * rewrite str_join_cons, IH, !str_app_assoc. reflexivity.
      * rewrite str_join_cons, IH, !str_app_assoc. reflexivity.
    + right. apply PyStrFacts.endswith_spec. destruct Hp as [->|Hp].
      * exists x. rewrite PyStrFacts.app_empty_r. reflexivity.
      * apply PyStrFacts.endswith_spec in Hp as [q ->].
        exists (x +:+ sep +:+ q). rewrite !str_app_assoc. reflexivity.
Qed.

(** X11. The file name of line 45 is the part of the URL after its last
    "/": the URL is some prefix followed by the file name, the prefix is
    empty or ends with "/", and the file name holds no "/".  A URL
    without any "/" is its own file name.  Splitting loses nothing:
    joining the segments with "/" gives the URL back. *)
Theorem filename_is_tail_of_url (url : string) :
  (exists p,
      url = p +:+ filename_of url
      /\ (p = EmptyString \/ PyStr.endswith p "/" = true)
      /\ PyStr.contains "/" (filename_of url) = false)
  /\ (PyStr.contains "/" url = false -> filename_of url = url)
  /\ str_join "/" (PyStr.split "/" url) = url.
Proof.
  split; [|split].
  - pose proof (filename_of_last url) as Hlast.
    apply last_Some in Hlast as [init Hinit].
    destruct (str_join_snoc "/" init (filename_of url)) as (p & Hjoin & Hp).
    exists p. split; [|split; [exact Hp|apply filename_of_clean]].
    rewrite <- Hjoin, <- Hinit. symmetry. apply (str_join_split "/" url).
  - intros Hclean. unfold filename_of.
    rewrite (PyStrFacts.split_clean _ _ Hclean). reflexivity.
  - apply (str_join_split "/" url).
Qed.

Lemma filename_is_tail_of_url_witness :
  PyStr.contains "/" "song.mxl" = false /\ filename_of "song.mxl" = "song.mxl".
Proof.
  split; [reflexivity|].
  exact (proj1 (proj2 (filename_is_tail_of_url "song.mxl")) eq_refl).
Defined.

(** ** What the download stage prints *)

Lemma notices_by_reference E urls :
  omap (notice E) urls
  = map (fun u => failure_line u (from_option exn_msg EmptyString (failure_exn E u)))
        (List.filter (fails E) urls).
Proof.
  induction urls as [|u rest IH]; [reflexivity|].
  cbn [omap list_omap List.filter].
  pose proof (fails_iff_failure_exn E u) as Hiff. unfold notice at 1.
  destruct (failure_exn E u) as [e|] eqn:He.
  - rewrite (proj2 Hiff) by eauto. simpl. rewrite He. simpl. f_equal. exact IH.
  - destruct (fails E u); [|exact IH].
    destruct (proj1 Hiff eq_refl) as [? ?]. discriminate.
Qed.

(** X12. When the download stage returns, its standard output is
    exactly one line per failing reference, in the order of the
    references, each made of "FAILED to download ", the URL of the
    reference as the script holds it, ": " and the text of the exception
    that stopped the reference, followed by "Done!".  For a rejected
    status that text is the one [raise_for_status] builds, which quotes
    the URL of the response.  A succeeding reference prints nothing, so
    the failing references can be read off the output. *)
Theorem failure_notices_name_failing_references
  (E : env) (urls : list string) (w : world) :
  fst (bulk_fetcher E urls w) = Ok tt ->
  printed (trace (snd (bulk_fetcher E urls w)))
  = (printed (trace w)
       ++ map (fun u => failure_line u (from_option exn_msg EmptyString (failure_exn E u)))
              (List.filter (fails E) urls)
       ++ ["Done!"])%list
  /\ (forall u, fails E u = true <-> is_Some (failure_exn E u))
  /\ (forall u r, http_get E u = inr r -> ok r = false ->
        failure_exn E u = Some (Exn HTTPError (http_error_msg r))).
Proof.
  intros Hok. pose proof (bulk_fetcher_Ok _ _ _ Hok) as Hab.
  rewrite (bulk_fetcher_completes E urls w Hab). simpl.
  split; [|split].
  - rewrite !printed_app, loop_printed, notices_by_reference. reflexivity.
  - intros u. apply fails_iff_failure_exn.
  - intros u r Hget Hnok. unfold failure_exn. rewrite Hget, Hnok. reflexivity.
Qed.

Lemma failure_notices_name_failing_references_witness :
  printed (trace (snd (bulk_fetcher E_sample sample_urls (initial_world ∅))))
  = ["FAILED to download https://host/path/song.mxl: 404 Client Error: Not Found for url: https://host/path/song.mxl";
     "Done!"].
Proof.
  rewrite (proj1 (failure_notices_name_failing_references E_sample sample_urls
                    (initial_world ∅) eq_refl)).
  reflexivity.
Defined.

(** X13. The two stages do not reach into each other.  The extraction
    stage, whether it returns or raises, changes no file, sends no GET
    and writes nothing; the download stage neither starts nor quits nor
    drives the browser. *)
Theorem stages_do_not_interfere (E : env) (urls : list string) (w : world) :
  (files (snd (link_extractor E w)) = files w
   /\ gets (trace (snd (link_extractor E w))) = gets (trace w)
   /\ written (trace (snd (link_extractor E w))) = written (trace w))
  /\ (browser_running (snd (bulk_fetcher E urls w)) = browser_running w
      /\ browser_events (trace (snd (bulk_fetcher E urls w)))
         = browser_events (trace w)).
Proof.
  split.
  - rewrite link_extractor_eq.
    destruct (chrome_fails E); [repeat split|].
    destruct (navigate_fails E DEMO_URL);
      [simpl; rewrite gets_app, written_app; simpl; rewrite !app_nil_r; repeat split|].
    destruct (select_missing E);
      [simpl; rewrite gets_app, written_app; simpl; rewrite !app_nil_r; repeat split|].
    destruct (select_options E) as [e|opts];
      [simpl; rewrite gets_app, written_app; simpl; rewrite !app_nil_r; repeat split|].
    destruct (first_attr_error opts);
      simpl; rewrite gets_app, written_app; simpl; rewrite !app_nil_r; repeat split.
  - rewrite bulk_fetcher_eq.
    destruct (loop_abort E urls); simpl; (split; [reflexivity|]);
      rewrite !browser_events_app, loop_events_no_browser; simpl;
      rewrite ?app_nil_r; reflexivity.
Qed.

(** ** The whole script and the disk *)

(** X14. Whatever the page offers and whatever the servers answer, the
    script changes no file other than score files directly under the
    output directory: a path whose content differs after the run is
    "scores/" followed by a name that holds no "/" and ends with ".xml"
    or ".mxl". *)
Theorem run_touches_only_score_files (E : env) (w : world) (p : string) :
  files (snd (main E w)) !! p <> files w !! p ->
  exists name,
    p = "scores/" +:+ name
    /\ PyStr.contains "/" name = false
    /\ recognized name = true.
Proof.
  destruct (makedirs_fails E DOWNLOAD_DIR) as [e|] eqn:Hm.
  { rewrite (main_makedirs_fails _ _ _ Hm). intros H. destruct H. reflexivity. }
  rewrite (main_after_makedirs E w Hm), link_extractor_eq.
  destruct (chrome_fails E); [intros H; destruct H; reflexivity|].
  destruct (navigate_fails E DEMO_URL); [intros H; destruct H; reflexivity|].
  destruct (select_missing E); [intros H; destruct H; reflexivity|].
  destruct (select_options E) as [e|opts]; [intros H; destruct H; reflexivity|].
  destruct (first_attr_error opts); [intros H; destruct H; reflexivity|].
  assert (Hfiles : forall w1,
             files (snd (bulk_fetcher E (list_set (kept_values opts)) w1))
             = foldl (store E) (files w1) (attempted E (list_set (kept_values opts)))).
  { intros w1. rewrite bulk_fetcher_eq. destruct (loop_abort E _); reflexivity. }
  rewrite Hfiles. simpl. intros Hdiff.
  destruct (decide (p ∈ map dest_of (list_set (kept_values opts)))) as [Hin|Hout].
  - apply list_elem_of_fmap in Hin as (u & -> & Hu).
    apply elem_of_list_set, elem_of_kept_values in Hu as (_ & Hrec & _).
    exists (filename_of u). split; [apply dest_of_eq|].
    split; [apply filename_of_clean|apply recognized_filename, Hrec].
  - destruct Hdiff. apply foldl_store_lookup_other.
    intros u Hu Heq. apply Hout. rewrite <- Heq.
    apply list_elem_of_fmap. exists u. split; [reflexivity|].
    apply (attempted_elem E _ u Hu).
Qed.

Lemma run_touches_only_score_files_witness :
  files (snd (main E_sample (initial_world ∅))) !! "scores/a.xml"
  <> files (initial_world ∅) !! "scores/a.xml"
  /\ exists name,
       "scores/a.xml" = "scores/" +:+ name
       /\ PyStr.contains "/" name = false
       /\ recognized name = true.
Proof.
  assert (Hdiff : files (snd (main E_sample (initial_world ∅))) !! "scores/a.xml"
                  <> files (initial_world ∅) !! "scores/a.xml")
    by (vm_compute; discriminate).
  split; [exact Hdiff|].
  exact (run_touches_only_score_files E_sample (initial_world ∅) "scores/a.xml" Hdiff).
Defined.

(** ** Fault isolation and the exit status, with the notices in view *)

(** X15. The requests of the download loop are always an initial part
    of the list of references, in its order and without repetition of a
    position: no reference is skipped, retried or taken out of turn.
    The loop returns exactly when standard output takes the failure
    notice of every failing reference; then every reference is
    requested, and a reference that succeeds has its file on disk
    whichever others failed. *)
Theorem download_loop_isolated_when_notices_print
  (E : env) (urls : list string) (w : world) :
  (exists done,
      done `prefix_of` urls
      /\ gets (trace (snd (download_files E urls w))) = (gets (trace w) ++ done)%list)
  /\ (fst (download_files E urls w) = Ok tt
      <-> Forall (fun u => item_abort E u = None) urls)
  /\ (Forall (fun u => item_abort E u = None) urls ->
      gets (trace (snd (download_files E urls w))) = (gets (trace w) ++ urls)%list
      /\ forall u, u ∈ urls -> succeeds E u = true ->
           is_Some (files (snd (download_files E urls w)) !! dest_of u)).
Proof.
  rewrite download_files_eq. simpl. split; [|split].
  - exists (attempted E urls). split; [apply attempted_prefix|].
    rewrite gets_app, loop_events_attempted. reflexivity.
  - rewrite Forall_forall, <- loop_abort_None.
    destruct (loop_abort E urls); split; congruence.
  - intros Hprint. apply loop_abort_Forall in Hprint.
    destruct (loop_completes _ _ Hprint) as [Hatt Hev].
    rewrite gets_app, loop_events_attempted, Hatt. split; [reflexivity|].
    intros u Hu Hs. apply foldl_store_succeeds; assumption.
Qed.

Lemma download_loop_isolated_when_notices_print_witness :
  Forall (fun u => item_abort E_sample u = None) sample_urls
  /\ fails E_sample "https://host/path/song.mxl" = true
  /\ gets (trace (snd (download_files E_sample sample_urls (initial_world ∅))))
     = sample_urls
  /\ is_Some (files (snd (download_files E_sample sample_urls (initial_world ∅)))
                !! dest_of "https://host/path/a.xml").
Proof.
  assert (Hprint : Forall (fun u => item_abort E_sample u = None) sample_urls)
    by (repeat constructor).
  destruct (proj2 (proj2 (download_loop_isolated_when_notices_print
                            E_sample sample_urls (initial_world ∅))) Hprint)
    as [Hgets Hdisk].
  split; [exact Hprint|]. split; [reflexivity|]. split; [exact Hgets|].
  apply Hdisk; [|reflexivity]. apply (bool_decide_unpack _). vm_compute. exact I.
Defined.


